(** * ModernAppTemplate workspace scripts: a shallow embedding

  The scripts under [scripts/] are embedded as Rocq functions:
  [workspace.py], [push_all.py], [changes_since_sync.py] and
  [find_template_violations.py].  External collaborators (git, the file
  system, the YAML and JSON parsers, difflib) appear as explicit inputs. *)

From Stdlib Require Import Ascii String ZArith.
From stdpp Require Import gmap strings list.

(** ** Python [str] primitives

  A [str] is a Rocq [string], one character per code point (code points
  below 256). *)
Module PyStr.

Definition nl : string := String "010"%char "".

(** [c.isspace()], which is also the class [\s] of [re] on [str]. *)
Definition isspace (c : ascii) : bool :=
  let n := N_of_ascii c in
  (((9 <=? n) && (n <=? 13)) || ((28 <=? n) && (n <=? 32))
   || (n =? 133) || (n =? 160))%N.

(** The class [\w] of [re] on [str]: alphanumeric code points and [_]. *)
Definition isword (c : ascii) : bool :=
  let n := N_of_ascii c in
  (((48 <=? n) && (n <=? 57)) || ((65 <=? n) && (n <=? 90))
   || ((97 <=? n) && (n <=? 122)) || (n =? 95)
   || (n =? 170) || (n =? 178) || (n =? 179) || (n =? 181)
   || (n =? 185) || (n =? 186) || ((188 <=? n) && (n <=? 190))
   || ((192 <=? n) && (n <=? 214)) || ((216 <=? n) && (n <=? 246))
   || (248 <=? n))%N.

Fixpoint lstrip (s : string) : string :=
  match s with
  | String c r => if isspace c then lstrip r else s
  | EmptyString => EmptyString
  end.

Fixpoint rstrip (s : string) : string :=
  match s with
  | EmptyString => EmptyString
  | String c r =>
      match rstrip r with
      | EmptyString => if isspace c then EmptyString else String c EmptyString
      | r' => String c r'
      end
  end.

(** [s.strip()] *)
Definition strip (s : string) : string := rstrip (lstrip s).

(** [s.startswith(p)] *)
Definition startswith (s p : string) : bool := String.prefix p s.

(** [s.endswith(suf)] *)
Fixpoint endswith (s suf : string) : bool :=
  String.eqb s suf
  || match s with
     | String _ r => endswith r suf
     | EmptyString => false
     end.

(** [sub in s] *)
Fixpoint contains (sub s : string) : bool :=
  String.prefix sub s
  || match s with
     | String _ r => contains sub r
     | EmptyString => false
     end.

(** [s[n:]] *)
Fixpoint drop (n : nat) (s : string) : string :=
  match n, s with
  | S n', String _ r => drop n' r
  | _, _ => s
  end.

(** [s[:n]] for [n >= 0] *)
Fixpoint take (n : nat) (s : string) : string :=
  match n, s with
  | S n', String c r => String c (take n' r)
  | _, _ => EmptyString
  end.

(** [s[:-k]] for [k > 0]: the end index is clamped at 0. *)
Definition slice_to_neg (s : string) (k : nat) : string :=
  take (String.length s - k) s.

(** Line boundaries of [str.splitlines]. *)
Definition islinebreak (c : ascii) : bool :=
  let n := N_of_ascii c in
  (((10 <=? n) && (n <=? 13)) || ((28 <=? n) && (n <=? 30)) || (n =? 133))%N.

(** [s.splitlines(keepends)]; [cur] is the line read so far. *)
Fixpoint splitlines_from (keepends : bool) (cur : string) (s : string)
  : list string :=
  match s with
  | EmptyString => if String.eqb cur "" then [] else [cur]
  | String c r =>
      if Ascii.eqb c "013"%char then
        match r with
        | String "010"%char r' =>
            (if keepends then cur +:+ String "013"%char nl else cur)
              :: splitlines_from keepends "" r'
        | _ =>
            (if keepends then cur +:+ String c "" else cur)
              :: splitlines_from keepends "" r
        end
      else if islinebreak c then
        (if keepends then cur +:+ String c "" else cur)
          :: splitlines_from keepends "" r
      else splitlines_from keepends (cur +:+ String c "") r
  end.

Definition splitlines (s : string) : list string :=
  splitlines_from false "" s.

Definition splitlines_keepends (s : string) : list string :=
  splitlines_from true "" s.

(** First occurrence of [sep] in [s]: the text before and after it. *)
Fixpoint cut (sep s : string) : option (string * string) :=
  if String.prefix sep s then Some ("", drop (String.length sep) s)
  else match s with
       | EmptyString => None
       | String c r =>
           match cut sep r with
           | Some (a, b) => Some (String c a, b)
           | None => None
           end
       end.

(** [s.split(sep, 1)] for a non-empty [sep] *)
Definition split1 (sep s : string) : list string :=
  match cut sep s with
  | Some (a, b) => [a; b]
  | None => [s]
  end.

(** Truthiness of a [str]. *)
Definition nonempty (s : string) : bool := negb (String.eqb s "").

End PyStr.

(** ** [changes_since_sync.py] *)
Module ChangesSinceSync.
Import PyStr.

(** The loop of [get_template_version] over the lines of the answers
    file.  [None] stands for the [IndexError] of [split(":", 1)[1]]. *)
Fixpoint get_template_version_lines (lines : list string) : option string :=
  match lines with
  | [] => Some "unknown"
  | line :: rest =>
      if startswith line "_commit:" then
        strip <$> (split1 ":" line !! 1%nat)
      else get_template_version_lines rest
  end.

(** [get_template_version(path)], on the text [answers.read_text()]. *)
Definition get_template_version (content : string) : option string :=
  get_template_version_lines (splitlines content).

End ChangesSinceSync.

(** ** [workspace.py] *)
Module Workspace.

(** One entry of the ["folders"] list of the parsed workspace file. *)
Record folder := Folder {
  folder_path : string;
  folder_name : option string
}.

(** The [pathlib] operations [get_repos] calls, on paths written as
    strings. *)
Record pathlib := Pathlib {
  joinpath : string -> string -> string;   (* [a / b] *)
  resolve : string -> string;              (* [p.resolve()] *)
  name : string -> string;                 (* [p.name] *)
  path_exists : string -> bool             (* [p.exists()] *)
}.

Definition repo : Type := string * string.

(** [get_repos()], on [workspace["folders"]] as [json.loads] returns it;
    [workspace_dir] is [WORKSPACE_FILE.parent]. *)
Definition get_repos (fs : pathlib) (workspace_dir : string)
    (folders : list folder) : list repo :=
  let repos := [] in
  let repos := repos ++ [("frontend", "frontend")] in
  let repos := repos ++ [("backend", "backend")] in
  fold_left
    (fun repos folder =>
       let path := resolve fs (joinpath fs workspace_dir (folder_path folder)) in
       let name := default (name fs path) (folder_name folder) in
       if negb (path_exists fs (joinpath fs path ".git")) then repos
       else repos ++ [(name, path)])
    folders repos.

(** A path contains a version-control metadata directory. *)
Definition has_git (fs : pathlib) (path : string) : bool :=
  path_exists fs (joinpath fs path ".git").

(** The resolved path of a folder entry and the pair it stands for. *)
Definition folder_resolved (fs : pathlib) (workspace_dir : string)
    (f : folder) : string :=
  resolve fs (joinpath fs workspace_dir (folder_path f)).

Definition folder_repo (fs : pathlib) (workspace_dir : string)
    (f : folder) : repo :=
  let path := folder_resolved fs workspace_dir f in
  (default (name fs path) (folder_name f), path).

Definition fixed_repos : list repo :=
  [("frontend", "frontend"); ("backend", "backend")].

End Workspace.

(** ** [push_all.py] *)
Module PushAll.
Import PyStr.

(** What [subprocess.run(..., capture_output=True, text=True)] returns. *)
Record completed := Completed {
  stdout : string;
  stderr : string
}.

(** One call of [run(args, cwd)]. *)
Definition call : Type := list string * string.

Section Main.
Context {World : Type}.

(** The outside world answers each git command and moves on. *)
Variable subprocess_run : list string -> string -> World -> completed * World.

(** State threaded through [main]: the world, the commands run so far and
    the arguments of the [print] calls so far. *)
Record state := State {
  world : World;
  calls : list call;
  printed : list string
}.

Definition M (A : Type) : Type := state -> A * state.

Definition ret {A} (a : A) : M A := fun s => (a, s).

Definition bind {A B} (m : M A) (k : A -> M B) : M B :=
  fun s => let (a, s') := m s in k a s'.

Notation "x <- m ;; k" := (bind m (fun x => k))
  (at level 100, m at next level, right associativity).
Notation "m ;;; k" := (bind m (fun _ => k))
  (at level 100, right associativity).

Definition run (args : list string) (cwd : string) : M completed :=
  fun s =>
    let (r, w) := subprocess_run args cwd (world s) in
    (r, State w (calls s ++ [(args, cwd)]) (printed s)).

Definition print (text : string) : M unit :=
  fun s => (tt, State (world s) (calls s) (printed s ++ [text])).

Fixpoint for_each {A} (l : list A) (body : A -> M unit) : M unit :=
  match l with
  | [] => ret tt
  | a :: rest => body a ;;; for_each rest body
  end.

(** ['=' * n] *)
Fixpoint repeat_eq (n : nat) : string :=
  match n with
  | O => ""
  | S n' => String "="%char (repeat_eq n')
  end.

Definition esc : string := String "027"%char "".

(** [a or b] on strings. *)
Definition str_or (a b : string) : string := if nonempty a then a else b.

Definition dirty_entry : Type := string * string * string.

(** Pre-flight loop: query the status of every repository. *)
Fixpoint preflight (repos : list Workspace.repo) (dirty : list dirty_entry)
    : M (list dirty_entry) :=
  match repos with
  | [] => ret dirty
  | (name, path) :: rest =>
      status <- run ["git"; "status"; "--porcelain"] path ;;
      if nonempty (strip (stdout status))
      then preflight rest (dirty ++ [(name, path, strip (stdout status))])
      else preflight rest dirty
  end.

(** What the abort branch prints for one dirty repository. *)
Definition dirty_lines (d : dirty_entry) : list string :=
  let '(name, path, changes) := d in
  ("  " +:+ name +:+ "  (" +:+ path +:+ ")")
    :: map (fun line => "    " +:+ line) (splitlines changes)
    ++ [""].

Definition abort_banner : string :=
  esc +:+ "[1;31mAborting: the following repos have uncommitted changes:"
      +:+ esc +:+ "[0m" +:+ nl.

Definition report_dirty (d : dirty_entry) : M unit :=
  for_each (dirty_lines d) print.

Definition push_repo (r : Workspace.repo) : M unit :=
  let (name, path) := r in
  print (nl +:+ repeat_eq 76) ;;;
  print ("  " +:+ name +:+ "  (" +:+ path +:+ ")") ;;;
  print (repeat_eq 76) ;;;
  push <- run ["git"; "push"] path ;;
  print (str_or (strip (stderr push)) (strip (stdout push))) ;;;
  tags <- run ["git"; "push"; "--tags"] path ;;
  let tag_output := str_or (strip (stderr tags)) (strip (stdout tags)) in
  if nonempty tag_output && negb (String.eqb tag_output "Everything up-to-date")
  then print tag_output
  else ret tt.

(** [main()], on the list [get_repos()] returned; the result is the
    process exit code. *)
Definition main (repos : list Workspace.repo) : M Z :=
  dirty <- preflight repos [] ;;
  match dirty with
  | _ :: _ =>
      print abort_banner ;;;
      for_each dirty report_dirty ;;;
      ret 1%Z
  | [] =>
      for_each repos push_repo ;;;
      print "" ;;;
      ret 0%Z
  end.

(** The commands of the two phases. *)
Definition status_call (r : Workspace.repo) : call :=
  (["git"; "status"; "--porcelain"], r.2).

Definition push_calls (r : Workspace.repo) : list call :=
  [(["git"; "push"], r.2); (["git"; "push"; "--tags"], r.2)].

(** The repositories whose status query answers with more than blanks,
    each with the stripped answer, when the queries are made in order
    from the world [w]. *)
Fixpoint dirty_of (repos : list Workspace.repo) (w : World)
    : list dirty_entry :=
  match repos with
  | [] => []
  | (name, path) :: rest =>
      let (status, w') :=
        subprocess_run ["git"; "status"; "--porcelain"] path w in
      (if nonempty (strip (stdout status))
       then [(name, path, strip (stdout status))] else [])
      ++ dirty_of rest w'
  end.

(** The world after the status queries. *)
Fixpoint after_status (repos : list Workspace.repo) (w : World) : World :=
  match repos with
  | [] => w
  | (name, path) :: rest =>
      after_status rest
        (subprocess_run ["git"; "status"; "--porcelain"] path w).2
  end.

End Main.

Arguments State {World} _ _ _.
Arguments world {World} _.
Arguments calls {World} _.
Arguments printed {World} _.

End PushAll.

(** ** [find_template_violations.py] *)
Module Violations.
Import PyStr.

(** *** Values of [yaml.safe_load] *)

Set Warnings "-register-all".

(** A float is kept only up to being zero or not, which is all its
    truth value depends on. *)
Inductive yaml :=
| YNull
| YBool (b : bool)
| YInt (n : Z)
| YFloat (is_zero : bool)
| YStr (s : string)
| YSeq (items : list yaml)
| YMap (items : list (yaml * yaml)).

(** Python truth value, as [if v:] and [not v] test it. *)
Definition truthy (v : yaml) : bool :=
  match v with
  | YNull => false
  | YBool b => b
  | YInt n => negb (n =? 0)%Z
  | YFloat is_zero => negb is_zero
  | YStr s => nonempty s
  | YSeq items => match items with [] => false | _ => true end
  | YMap items => match items with [] => false | _ => true end
  end.

(** The keys of [copier.yml] the tool reads; [None] is an absent key. *)
Record config := Config {
  cfg_subdirectory : option string;
  cfg_skip_if_exists : option (list string);
  cfg_exclude : option (list string)
}.

Definition get_skip_if_exists (config : config) : gset string :=
  list_to_set (default [] (cfg_skip_if_exists config)).

(** *** The pattern of [evaluate_excludes]

    [\{%\s*if\s+not\s+(\w+)\s*%\}(.+?)\{%\s*endif\s*%\}] under
    [pattern.match]: a backtracking matcher in continuation style, each
    piece trying its alternatives in the order [re] tries them. *)
Section Regex.
Context {A : Type}.

(** A literal. *)
Definition lit (p : string) (k : string -> option A) (s : string) : option A :=
  if String.prefix p s then k (drop (String.length p) s) else None.

(** [\s*], greedy. *)
Fixpoint space_star (k : string -> option A) (s : string) : option A :=
  match s with
  | String c r =>
      if isspace c then
        match space_star k r with
        | Some x => Some x
        | None => k s
        end
      else k s
  | EmptyString => k s
  end.

(** [\s+], greedy. *)
Definition space_plus (k : string -> option A) (s : string) : option A :=
  match s with
  | String c r => if isspace c then space_star k r else None
  | EmptyString => None
  end.

(** Zero or more [\w] after the captured characters [acc], greedy. *)
Fixpoint word_star (acc : string) (k : string -> string -> option A)
    (s : string) : option A :=
  match s with
  | String c r =>
      if isword c then
        match word_star (acc +:+ String c "") k r with
        | Some x => Some x
        | None => k acc s
        end
      else k acc s
  | EmptyString => k acc s
  end.

(** [(\w+)], greedy, capturing. *)
Definition word_plus (k : string -> string -> option A) (s : string)
    : option A :=
  match s with
  | String c r => if isword c then word_star (String c "") k r else None
  | EmptyString => None
  end.

(** [(.+?)] after the characters [acc], lazy, capturing; [.] is any
    character but a newline. *)
Fixpoint any_lazy_plus (acc : string) (k : string -> string -> option A)
    (s : string) : option A :=
  match s with
  | String c r =>
      if Ascii.eqb c "010"%char then None
      else
        match k (acc +:+ String c "") r with
        | Some x => Some x
        | None => any_lazy_plus (acc +:+ String c "") k r
        end
  | EmptyString => None
  end.

End Regex.

(** [pattern.match(s)]: the groups [(m.group(1), m.group(2))]. *)
Definition pattern_match (s : string) : option (string * string) :=
  lit "{%" (space_star (lit "if" (space_plus (lit "not" (space_plus
    (word_plus (fun flag_name =>
       space_star (lit "%}"
         (any_lazy_plus "" (fun body =>
            lit "{%" (space_star (lit "endif" (space_star (lit "%}"
              (fun _ => Some (flag_name, body)))))))))))))))) s.

Definition evaluate_excludes (config : config) (answers : gmap string yaml)
    : gset string :=
  fold_left
    (fun (excluded : gset string) entry =>
       match pattern_match (strip entry) with
       | None => excluded
       | Some (flag_name, body) =>
           let file_path := strip body in
           let flag_value := default (YBool false) (answers !! flag_name) in
           if negb (truthy flag_value) then excluded ∪ {[file_path]}
           else excluded
       end)
    (default [] (cfg_exclude config)) ∅.

(** *** Template file inventory *)

(** One path of [template_dir.rglob("*")], relative to [template_dir]. *)
Record dir_entry := DirEntry {
  entry_rel : string;
  entry_is_file : bool
}.

(** The parts of a relative path, which order [Path] objects. *)
Fixpoint path_parts_from (cur : string) (s : string) : list string :=
  match s with
  | EmptyString => [cur]
  | String c r =>
      if Ascii.eqb c "/"%char then cur :: path_parts_from "" r
      else path_parts_from (cur +:+ String c "") r
  end.

Definition path_parts (s : string) : list string := path_parts_from "" s.

(** [a < b] on lists of strings. *)
Fixpoint parts_ltb (a b : list string) : bool :=
  match a, b with
  | [], [] => false
  | [], _ :: _ => true
  | _ :: _, [] => false
  | x :: a', y :: b' =>
      if String.eqb x y then parts_ltb a' b' else String.ltb x y
  end.

Definition path_ltb (p q : dir_entry) : bool :=
  parts_ltb (path_parts (entry_rel p)) (path_parts (entry_rel q)).

Fixpoint insert_sorted (p : dir_entry) (l : list dir_entry) : list dir_entry :=
  match l with
  | [] => [p]
  | q :: rest =>
      if path_ltb p q then p :: l else q :: insert_sorted p rest
  end.

(** [sorted(...)] on paths: a stable sort. *)
Definition sorted (l : list dir_entry) : list dir_entry :=
  fold_left (fun acc p => insert_sorted p acc) l [].

(** [(output_path, source_path, is_jinja)] *)
Definition triple : Type := string * string * bool.

Definition output_of (t : triple) : string := t.1.1.
Definition source_of (t : triple) : string := t.1.2.
Definition is_jinja_of (t : triple) : bool := t.2.

Definition enumerate_template_files (listing : list dir_entry) : list triple :=
  fold_left
    (fun files p =>
       if negb (entry_is_file p) then files
       else
         let rel := entry_rel p in
         if contains "{{" rel || contains "{%" rel then files
         else
           let is_jinja := endswith rel ".jinja" in
           let output_path :=
             if is_jinja then slice_to_neg rel (String.length ".jinja")
             else rel in
           files ++ [(output_path, rel, is_jinja)])
    (sorted listing) [].

(** The test of the [elif] branch of [classify_files]. *)
Definition is_excluded (excluded : gset string) (output_path : string) : bool :=
  bool_decide (output_path ∈ excluded)
  || existsb (fun e => startswith output_path (e +:+ "/")) (elements excluded).

Definition classify_files (listing : list dir_entry)
    (skip_if_exists excluded : gset string)
    : list triple * list string * list string :=
  let all_files := enumerate_template_files listing in
  fold_left
    (fun '(template_owned, app_owned, excluded_files)
         '(output_path, source_path, is_jinja) =>
       if bool_decide (output_path ∈ skip_if_exists) then
         (template_owned, app_owned ++ [output_path], excluded_files)
       else if is_excluded excluded output_path then
         (template_owned, app_owned, excluded_files ++ [output_path])
       else
         (template_owned ++ [(output_path, source_path, is_jinja)],
          app_owned, excluded_files))
    all_files ([], [], []).

(** *** The environment of a run

    The file system, git, the YAML parser and [difflib], as the tool
    calls them.  Paths are strings. *)

(** A call that returns a value or raises an exception, named as Python
    names it. *)
Inductive result (A : Type) :=
| Ok (a : A)
| Raise (exception : string).

Arguments Ok {A} a.
Arguments Raise {A} exception.

(** Reading a path raises when the path is a directory or cannot be
    read; an existing path is no guarantee.  [yaml.safe_load] raises on
    text that is not YAML and otherwise returns the document: [Some] of a
    mapping, or [None] for anything else (the [None] of an empty file, a
    list, a scalar).  The mapping of [copier.yml] is seen through the
    keys the tool reads, each of the type the tool uses it at; the
    mapping of the answers file has strings for keys.  [git] is installed
    and runs. *)
Record env := Env {
  joinpath : string -> string -> string;        (* [a / b] *)
  resolve : string -> string;                   (* [p.resolve()] *)
  path_exists : string -> bool;                 (* [p.exists()] *)
  read_text : string -> result string;          (* [p.read_text(...)] *)
  read_bytes : string -> result string;         (* [p.read_bytes()] *)
  rglob : string -> list dir_entry;             (* [template_dir.rglob("*")] *)
  safe_load_config : string -> result (option config);
  safe_load_answers : string -> result (option (gmap string yaml));
  git_stdout : list string -> string -> string; (* [subprocess.run(args, cwd).stdout] *)
  unified_diff : list string -> list string -> string -> string -> list string
}.

Definition load_copier_config (w : env) (template_repo : string)
    : result (option config) :=
  match read_text w (joinpath w template_repo "copier.yml") with
  | Raise e => Raise e
  | Ok text => safe_load_config w text
  end.

Definition load_app_answers (w : env) (app_dir : string)
    : result (option (gmap string yaml)) :=
  match read_text w (joinpath w app_dir ".copier-answers.yml") with
  | Raise e => Raise e
  | Ok text => safe_load_answers w text
  end.

(** [evaluate_excludes(config, answers)] on the document that
    [load_app_answers] returned: when it is not a mapping, [answers.get]
    raises at the first entry that the pattern matches, and without such
    an entry the loop leaves [excluded] empty. *)
Definition evaluate_excludes_of (config : config)
    (answers : option (gmap string yaml)) : result (gset string) :=
  match answers with
  | Some answers => Ok (evaluate_excludes config answers)
  | None =>
      if existsb (fun entry => bool_decide (is_Some (pattern_match (strip entry))))
           (default [] (cfg_exclude config))
      then Raise "AttributeError"
      else Ok ∅
  end.

Definition get_template_dir (w : env) (template_repo : string)
    (config : config) : string :=
  let subdir := default "." (cfg_subdirectory config) in
  joinpath w template_repo subdir.

(** *** Git operations *)

Definition find_copier_commit (w : env) (app_dir : string) : option string :=
  let commit :=
    strip (git_stdout w
             ["git"; "log"; "--format=%H"; "-1"; "--"; ".copier-answers.yml"]
             app_dir) in
  if nonempty commit then Some commit else None.

Definition file_modified_since (w : env) (app_dir commit file_path : string)
    : bool :=
  nonempty
    (strip (git_stdout w
              ["git"; "diff"; "--name-only"; commit; "HEAD"; "--"; file_path]
              app_dir)).

Definition get_diff (w : env) (app_dir commit file_path : string) : string :=
  git_stdout w ["git"; "diff"; commit; "HEAD"; "--"; file_path] app_dir.

Definition get_commit_log_for_file (w : env)
    (app_dir since_commit file_path : string) : list string :=
  let out :=
    git_stdout w
      ["git"; "log"; "--oneline"; since_commit +:+ "..HEAD"; "--"; file_path]
      app_dir in
  filter (fun line => nonempty line = true) (splitlines (strip out)).

Definition count_diff_lines (diff_text : string) : nat * nat :=
  fold_left
    (fun '(added, removed) line =>
       if startswith line "+" && negb (startswith line "+++") then
         (S added, removed)
       else if startswith line "-" && negb (startswith line "---") then
         (added, S removed)
       else (added, removed))
    (splitlines diff_text) (0, 0).

(** *** Findings *)

Record violation := Violation {
  v_file : string;
  v_added : nat;
  v_removed : nat;
  v_diff : string;
  v_commits : list string
}.

Record divergence := Divergence {
  d_file : string;
  d_source : string;
  d_added : nat;
  d_removed : nat;
  d_diff : string
}.

Record jinja_file := JinjaFile {
  j_file : string;
  j_source : string
}.

(** *** Source comparison *)

(** The body of the loop of [compare_to_source]; an exception raised in
    one turn ends the loop. *)
Definition compare_step (w : env) (app_dir template_dir : string)
    (acc : result (list divergence * list jinja_file)) (t : triple)
    : result (list divergence * list jinja_file) :=
  match acc with
  | Raise e => Raise e
  | Ok (diverged, jinja_files) =>
      let '(output_path, source_path, is_jinja) := t in
      let app_file := joinpath w app_dir output_path in
      let template_file := joinpath w template_dir source_path in
      if negb (path_exists w app_file) then Ok (diverged, jinja_files)
      else if is_jinja : bool then
        Ok (diverged, jinja_files ++ [JinjaFile output_path source_path])
      else
        match read_bytes w app_file with
        | Raise e => Raise e
        | Ok app_content =>
        match read_bytes w template_file with
        | Raise e => Raise e
        | Ok template_content =>
            if negb (String.eqb app_content template_content) then
              match read_text w app_file with
              | Raise e => Raise e
              | Ok app_text =>
              match read_text w template_file with
              | Raise e => Raise e
              | Ok template_text =>
                  let app_lines := splitlines_keepends app_text in
                  let template_lines := splitlines_keepends template_text in
                  let diff :=
                    unified_diff w template_lines app_lines
                      ("template/" +:+ source_path) output_path in
                  let diff_text := String.concat "" diff in
                  let '(added, removed) := count_diff_lines diff_text in
                  Ok (diverged
                        ++ [Divergence output_path source_path added removed
                              diff_text],
                      jinja_files)
              end end
            else Ok (diverged, jinja_files)
        end end
  end.

Definition compare_to_source (w : env) (app_dir template_dir : string)
    (template_owned : list triple)
    : result (list divergence * list jinja_file) :=
  fold_left (compare_step w app_dir template_dir) template_owned (Ok ([], [])).

(** *** Main *)

Record args := Args {
  arg_app_dir : string;
  arg_template_repo : option string;
  arg_diff : bool;
  arg_commits : bool
}.

(** The first loop of [main]: post-adoption changes and missing files. *)
Definition scan_git (w : env) (app_dir copier_commit : string)
    (template_owned : list triple) : list violation * list string :=
  fold_left
    (fun '(git_violations, missing) '(output_path, _source_path, _is_jinja) =>
       let full_path := joinpath w app_dir output_path in
       if negb (path_exists w full_path) then
         (git_violations, missing ++ [output_path])
       else if file_modified_since w app_dir copier_commit output_path then
         let diff_text := get_diff w app_dir copier_commit output_path in
         let '(added, removed) := count_diff_lines diff_text in
         let commits :=
           get_commit_log_for_file w app_dir copier_commit output_path in
         (git_violations
            ++ [Violation output_path added removed diff_text commits],
          missing)
       else (git_violations, missing))
    template_owned ([], []).

(** What a run that passed its precondition checks reports: the file
    inventory, the listing of each section and the five numbers of the
    summary.  The rendering (colours, diffs shown on request) is left
    out. *)
Record report := Report {
  r_template_owned : list triple;
  r_app_owned : list string;
  r_excluded_files : list string;
  r_git_violations : list violation;     (* POST-ADOPTION CHANGES *)
  r_diverged : list divergence;          (* [compare_to_source], first part *)
  r_jinja_files : list jinja_file;       (* [compare_to_source], second part *)
  r_pre_existing : list divergence;      (* PRE-EXISTING DIVERGENCE *)
  r_jinja_non_git : list jinja_file;     (* JINJA FILES *)
  r_also_diverged : list divergence;     (* the "reported above" note *)
  r_missing : list string;               (* MISSING *)
  r_total_files : Z;
  r_match_count : Z;                     (* "match source exactly" *)
  r_jinja_only_count : Z;
  r_git_count : Z;
  r_pre_existing_count : Z;
  r_missing_count : Z;
  r_had_findings : bool
}.

Definition nonempty_list {A} (l : list A) : bool :=
  match l with [] => false | _ => true end.

(** [len(x)] as a Python integer. *)
Definition len {A} (l : list A) : Z := Z.of_nat (length l).

(** The body of [main] from [had_findings = False] on. *)
Definition find_violations (w : env) (app_dir template_dir copier_commit : string)
    (template_owned : list triple) (app_owned excluded_files : list string)
    : result report :=
  let had_findings := false in
  let '(git_violations, missing) :=
    scan_git w app_dir copier_commit template_owned in
  let had_findings :=
    if nonempty_list git_violations then true else had_findings in
  match compare_to_source w app_dir template_dir template_owned with
  | Raise e => Raise e
  | Ok (diverged, jinja_files) =>
      let git_violation_files : gset string :=
        list_to_set (map v_file git_violations) in
      let pre_existing :=
        filter (fun d => d_file d ∉ git_violation_files) diverged in
      let had_findings :=
        if nonempty_list pre_existing then true else had_findings in
      let jinja_non_git :=
        filter (fun j => j_file j ∉ git_violation_files) jinja_files in
      let also_diverged :=
        filter (fun d => d_file d ∈ git_violation_files) diverged in
      let total_files := len template_owned in
      let violation_files : gset string :=
        git_violation_files ∪ list_to_set (map d_file pre_existing) in
      let missing_set : gset string := list_to_set missing in
      let clean_count :=
        (total_files - Z.of_nat (size violation_files)
         - Z.of_nat (size missing_set))%Z in
      let jinja_only_count :=
        len (filter (fun j => (j_file j ∉ violation_files)
                              ∧ (j_file j ∉ missing_set)) jinja_files) in
      Ok (Report template_owned app_owned excluded_files
            git_violations diverged jinja_files
            pre_existing jinja_non_git also_diverged missing
            total_files (clean_count - jinja_only_count)%Z jinja_only_count
            (len git_violations) (len pre_existing) (len missing)
            had_findings)
  end.

(** How a run ends. *)
Inductive outcome :=
| Failed (message : string)      (* an error line, then [sys.exit(1)] *)
| Uncaught (exception : string)  (* an exception leaves [main]: a traceback *)
| Finished (r : report).         (* the report, then exit by [had_findings] *)

Definition exit_code (o : outcome) : Z :=
  match o with
  | Failed _ => 1
  | Uncaught _ => 1
  | Finished r => if r_had_findings r then 1 else 0
  end.

Definition main (w : env) (args : args) : outcome :=
  let app_dir := resolve w (arg_app_dir args) in
  if negb (path_exists w (joinpath w app_dir ".copier-answers.yml")) then
    Failed ("Error: " +:+ app_dir +:+ " does not contain .copier-answers.yml")
  else
    match load_app_answers w app_dir with
    | Raise e => Uncaught e
    | Ok answers =>
    let template_repo : string + outcome :=
      match arg_template_repo args with
      | Some t => inl (resolve w t)
      | None =>
          match answers with
          | None => inr (Uncaught "AttributeError")   (* [answers.get] *)
          | Some answers =>
              let src_path := default (YStr "") (answers !! "_src_path") in
              if truthy src_path then
                match src_path with
                | YStr s => inl (resolve w (joinpath w app_dir s))
                | _ => inr (Uncaught "TypeError")
                end
              else
                inr (Failed
                  "Error: cannot determine template repo path. Use --template-repo.")
          end
      end in
    match template_repo with
    | inr o => o
    | inl template_repo =>
        if negb (path_exists w (joinpath w template_repo "copier.yml")) then
          Failed ("Error: " +:+ template_repo +:+ " does not contain copier.yml")
        else
          match load_copier_config w template_repo with
          | Raise e => Uncaught e
          | Ok None => Uncaught "AttributeError"      (* [config.get] *)
          | Ok (Some config) =>
          let template_dir := get_template_dir w template_repo config in
          let skip_if_exists := get_skip_if_exists config in
          match evaluate_excludes_of config answers with
          | Raise e => Uncaught e
          | Ok excluded =>
          let '(template_owned, app_owned, excluded_files) :=
            classify_files (rglob w template_dir) skip_if_exists excluded in
          match find_copier_commit w app_dir with
          | None =>
              Failed "Error: no commits found that modified .copier-answers.yml"
          | Some copier_commit =>
              match answers with
              | None => Uncaught "AttributeError"     (* [answers.items()] *)
              | Some _ =>
                  match find_violations w app_dir template_dir copier_commit
                          template_owned app_owned excluded_files with
                  | Raise e => Uncaught e
                  | Ok r => Finished r
                  end
              end
          end
          end
          end
    end
    end.

End Violations.

(** ** Running git and printing, with exit status

    [subprocess.run(..., capture_output=True, text=True)] with its return
    code, for the tools that test it, and the state threaded through
    them. *)
Module Proc.

Record completed := Completed {
  returncode : Z;
  stdout : string;
  stderr : string
}.

Definition call : Type := list string * string.

Section Monad.
Context {World : Type}.
Variable subprocess_run : list string -> string -> World -> completed * World.

Record state := State {
  world : World;
  calls : list call;
  printed : list string
}.

Definition M (A : Type) : Type := state -> A * state.

Definition ret {A} (a : A) : M A := fun s => (a, s).

Definition bind {A B} (m : M A) (k : A -> M B) : M B :=
  fun s => let (a, s') := m s in k a s'.

Definition run (args : list string) (cwd : string) : M completed :=
  fun s =>
    let (r, w) := subprocess_run args cwd (world s) in
    (r, State w (calls s ++ [(args, cwd)]) (printed s)).

(** [run_color(args, cwd)]: [[*args, "--color=always"]]. *)
Definition run_color (args : list string) (cwd : string) : M completed :=
  run (args ++ ["--color=always"]) cwd.

Definition print (text : string) : M unit :=
  fun s => (tt, State (world s) (calls s) (printed s ++ [text])).

Fixpoint for_each {A} (l : list A) (body : A -> M unit) : M unit :=
  match l with
  | [] => ret tt
  | a :: rest => bind (body a) (fun _ => for_each rest body)
  end.

End Monad.

Arguments State {World} _ _ _.
Arguments world {World} _.
Arguments calls {World} _.
Arguments printed {World} _.

End Proc.

(** ** [pull_all.py] *)
Module PullAll.
Import PyStr Proc.

Section Main.
Context {World : Type}.
Variable subprocess_run : list string -> string -> World -> completed * World.

Notation "x <- m ;; k" := (bind m (fun x => k))
  (at level 100, m at next level, right associativity).
Notation "m ;;; k" := (bind m (fun _ => k))
  (at level 100, right associativity).

Definition status_dirty : string :=
  "Status: " +:+ PushAll.esc +:+ "[1;31mDIRTY" +:+ PushAll.esc +:+ "[0m".

Definition status_clean : string :=
  "Status: " +:+ PushAll.esc +:+ "[32mclean" +:+ PushAll.esc +:+ "[0m".

(** The body of the loop of [main]. *)
Definition pull_repo (r : Workspace.repo) : M unit :=
  let (name, path) := r in
  print (nl +:+ PushAll.repeat_eq 76) ;;;
  print ("  " +:+ name +:+ "  (" +:+ path +:+ ")") ;;;
  print (PushAll.repeat_eq 76) ;;;
  pull <- run subprocess_run ["git"; "pull"] path ;;
  print (strip (stdout pull)) ;;;
  (if nonempty (strip (stderr pull)) then print (strip (stderr pull))
   else ret tt) ;;;
  status <- run subprocess_run ["git"; "status"; "--porcelain"] path ;;
  if nonempty (strip (stdout status)) then
    print status_dirty ;;;
    for_each (splitlines (strip (stdout status)))
      (fun line => print ("  " +:+ line))
  else print status_clean.

Definition main (repos : list Workspace.repo) : M unit :=
  for_each repos pull_repo ;;;
  print "".

End Main.
End PullAll.

(** ** [review_all.py] *)
Module ReviewAll.
Import PyStr Proc.

(** [(title, summary, diff)], [None] where the source has [None]. *)
Definition section : Type := string * option string * option string.

Definition title_of (s : section) : string := s.1.1.

(** Truth value of an optional string: [None] and [""] are false. *)
Definition given (o : option string) : bool :=
  match o with
  | Some s => nonempty s
  | None => false
  end.

Section Main.
Context {World : Type}.
Variable subprocess_run : list string -> string -> World -> completed * World.

Notation "x <- m ;; k" := (bind m (fun x => k))
  (at level 100, m at next level, right associativity).
Notation "m ;;; k" := (bind m (fun _ => k))
  (at level 100, right associativity).

Definition review_repo (name path : string) : M (list section) :=
  let sections : list section := [] in
  log <- run subprocess_run
           ["git"; "log"; "--oneline"; "@{upstream}..HEAD"] path ;;
  sections <-
    (if (returncode log =? 0)%Z && nonempty (strip (stdout log)) then
       let commits := strip (stdout log) in
       diff <- run_color subprocess_run
                 ["git"; "diff"; "@{upstream}..HEAD"] path ;;
       ret (sections
              ++ [("Unpushed commits", Some commits, Some (stdout diff))])
     else ret sections) ;;
  staged <- run_color subprocess_run ["git"; "diff"; "--cached"] path ;;
  let sections :=
    if nonempty (strip (stdout staged))
    then sections ++ [("Staged changes", None, Some (stdout staged))]
    else sections in
  unstaged <- run_color subprocess_run ["git"; "diff"] path ;;
  let sections :=
    if nonempty (strip (stdout unstaged))
    then sections ++ [("Unstaged changes", None, Some (stdout unstaged))]
    else sections in
  untracked <- run subprocess_run
                 ["git"; "ls-files"; "--others"; "--exclude-standard"] path ;;
  let sections :=
    if nonempty (strip (stdout untracked))
    then sections
           ++ [("Untracked files", Some (strip (stdout untracked)), None)]
    else sections in
  ret sections.

Definition print_section (s : section) : @M World unit :=
  let '(title, summary, diff) := s in
  print (nl +:+ "--- " +:+ title +:+ " ---") ;;;
  (if given summary then print (default "" summary) else ret tt) ;;;
  (if given diff then print (default "" diff) else ret tt).

(** The loop of [main]; the result is [found_any]. *)
Fixpoint review_loop (repos : list Workspace.repo) (found_any : bool)
    : M bool :=
  match repos with
  | [] => ret found_any
  | (name, path) :: rest =>
      sections <- review_repo name path ;;
      match sections with
      | [] => review_loop rest found_any
      | _ :: _ =>
          print (nl +:+ PushAll.repeat_eq 76) ;;;
          print ("  " +:+ name +:+ "  (" +:+ path +:+ ")") ;;;
          print (PushAll.repeat_eq 76) ;;;
          for_each sections print_section ;;;
          review_loop rest true
      end
  end.

Definition main (repos : list Workspace.repo) : M unit :=
  found_any <- review_loop repos false ;;
  (if negb found_any then print "No pending changes in any repo."
   else ret tt) ;;;
  print "".

End Main.
End ReviewAll.

(** ** [changes_since_sync.py], the per-repository review *)
Module SyncReview.
Import PyStr Proc.

Definition ANSWERS_FILE : string := ".copier-answers.yml".

(** [s.split(c)] for a one-character separator. *)
Fixpoint split_char_from (c : ascii) (cur : string) (s : string)
    : list string :=
  match s with
  | EmptyString => [cur]
  | String d r =>
      if Ascii.eqb d c then cur :: split_char_from c "" r
      else split_char_from c (cur +:+ String d "") r
  end.

Definition split_char (c : ascii) (s : string) : list string :=
  split_char_from c "" s.

(** What [get_sync_commit] makes of the answer of [git log]: [None] for
    the pair [(None, None)]. *)
Definition sync_commit_of (result : completed) : option (string * string) :=
  if negb (returncode result =? 0)%Z || negb (nonempty (strip (stdout result)))
  then None
  else
    match split1 " " (strip (stdout result)) with
    | [sha] => Some (sha, "")
    | sha :: date :: _ => Some (sha, date)
    | [] => Some ("", "")
    end.

(** What [review_repo] returns: [None], the error dict or the info
    dict; [Raised] when [get_template_version] raises. *)
Record info := Info {
  i_name : string;
  i_path : string;
  i_version : string;
  i_sync_sha : string;
  i_sync_date : string;
  i_commits : string;
  i_diff : string
}.

Inductive review :=
| NotManaged
| ReviewError (name path error : string)
| ReviewInfo (i : info)
| Raised.

Section Review.
Context {World : Type}.
Variable subprocess_run : list string -> string -> World -> completed * World.

(** The file system: [Path(path) / name], [p.exists()], [p.read_text()]. *)
Variable joinpath : string -> string -> string.
Variable path_exists : string -> bool.
Variable read_text : string -> string.

Notation "x <- m ;; k" := (bind m (fun x => k))
  (at level 100, m at next level, right associativity).

Definition get_sync_commit (path : string) : M (option (string * string)) :=
  result <- run subprocess_run
              ["git"; "log"; "-1"; "--format=%H %ai"; "--"; ANSWERS_FILE]
              path ;;
  ret (sync_commit_of result).

Definition review_repo (name path : string) : M review :=
  let answers_path := joinpath path ANSWERS_FILE in
  if negb (path_exists answers_path) then ret NotManaged
  else
    sync <- get_sync_commit path ;;
    match sync with
    | None =>
        ret (ReviewError name path ("No git history for " +:+ ANSWERS_FILE))
    | Some (sync_sha, sync_date) =>
        if negb (nonempty sync_sha) then
          ret (ReviewError name path ("No git history for " +:+ ANSWERS_FILE))
        else
          match ChangesSinceSync.get_template_version
                  (read_text (joinpath path ANSWERS_FILE)) with
          | None => ret Raised
          | Some version =>
              log <- run subprocess_run
                       ["git"; "log"; "--oneline"; sync_sha +:+ "..HEAD";
                        "--"; "."; ":(exclude)docs/"] path ;;
              let commits :=
                if (returncode log =? 0)%Z then strip (stdout log) else "" in
              diff <- run subprocess_run
                        ["git"; "diff"; "--color=always";
                         sync_sha +:+ "..HEAD"; "--"; ".";
                         ":(exclude)docs/"] path ;;
              let diff_output :=
                if (returncode diff =? 0)%Z then stdout diff else "" in
              ret (ReviewInfo
                     (Info name path version (take 12 sync_sha)
                        (default "" (head (split_char " " sync_date)))
                        commits diff_output))
          end
    end.

End Review.
End SyncReview.

(** ** [workspace.py], the trailing commas

    [re.sub(r",\s*([}\]])", r"\1", text)], the first step of [get_repos]:
    scanning from the left, every match of a comma, blanks and a closing
    bracket is replaced by the bracket. *)
Module Jsonc.
Import PyStr.

(** [([}\]])] at the start of [s]: the bracket and what follows it. *)
Definition close_bracket (s : string) : option (ascii * string) :=
  match s with
  | String c r =>
      if Ascii.eqb c "}"%char || Ascii.eqb c "]"%char then Some (c, r)
      else None
  | EmptyString => None
  end.

(** The pattern at the start of [s]: group 1 and the rest of [s]. *)
Definition match_comma (s : string) : option (ascii * string) :=
  Violations.lit "," (Violations.space_star close_bracket) s.

(** The scan of [re.sub], with [n] steps at most. *)
Fixpoint sub_steps (n : nat) (s : string) : string :=
  match n with
  | O => s
  | S n' =>
      match match_comma s with
      | Some (c, rest) => String c (sub_steps n' rest)
      | None =>
          match s with
          | EmptyString => EmptyString
          | String c r => String c (sub_steps n' r)
          end
      end
  end.

(** A scan takes at most one step for each character. *)
Definition strip_trailing_commas (text : string) : string :=
  sub_steps (String.length text) text.

End Jsonc.

(** * Properties *)

Set Warnings "-clear-no-such-hyp".

(** ** Strings *)
Section StringFacts.
Import PyStr.

Lemma append_cons c s t : String c s +:+ t = String c (s +:+ t).
Proof. reflexivity. Qed.

Lemma append_nil s : "" +:+ s = s.
Proof. reflexivity. Qed.

Lemma prefix_drop p s :
  String.prefix p s = true -> s = p +:+ drop (String.length p) s.
Proof.
  revert s. induction p as [|c p IH]; intros s H.
  - by destruct s.
  - destruct s as [|d s]; [done|]. simpl in H.
    destruct (Ascii.ascii_dec c d) as [->|]; [|done].
    rewrite append_cons. simpl. f_equal. by apply IH.
Qed.

Lemma cut_char d a b :
  contains (String d "") a = false ->
  cut (String d "") (a +:+ String d b) = Some (a, b).
Proof.
  induction a as [|c a IH]; intros Hc.
  - rewrite append_nil. unfold cut; fold cut. simpl.
    destruct (Ascii.ascii_dec d d); [|done]. by destruct b.
  - rewrite append_cons. simpl in Hc.
    apply orb_false_iff in Hc as [Hp Hc].
    unfold cut; fold cut. simpl. simpl in Hp.
    destruct (Ascii.ascii_dec d c) as [->|Hne].
    + by destruct a.
    + by rewrite IH.
Qed.

End StringFacts.

(** ** The recorded template version *)
Section TemplateVersion.
Import PyStr ChangesSinceSync.

Definition no_commit_key (line : string) : Prop :=
  startswith line "_commit:" = false.

Lemma version_lines_unknown lines :
  Forall no_commit_key lines ->
  get_template_version_lines lines = Some "unknown".
Proof.
  induction 1 as [|l ls Hl _ IH]; [done|].
  simpl. unfold no_commit_key in Hl. by rewrite Hl.
Qed.

Lemma version_lines_skip pre lines :
  Forall no_commit_key pre ->
  get_template_version_lines (pre ++ lines) = get_template_version_lines lines.
Proof.
  induction 1 as [|l ls Hl _ IH]; [done|].
  simpl. unfold no_commit_key in Hl. by rewrite Hl.
Qed.

Lemma version_lines_total lines :
  exists v, get_template_version_lines lines = Some v.
Proof.
  induction lines as [|l ls IH]; [by eexists|].
  simpl. destruct (startswith l "_commit:") eqn:Hp; [|done].
  apply prefix_drop in Hp. rewrite Hp.
  change ("_commit:" +:+ ?r) with ("_commit" +:+ String ":" r).
  unfold split1. rewrite cut_char by done. by eexists.
Qed.

(** C10: [get_template_version] returns the trimmed text after the first
    colon of the first line that starts with ["_commit:"], returns
    ["unknown"] when no line starts with it, and never raises. *)
Theorem get_template_version_spec (content : string) :
  (exists v, get_template_version content = Some v)
  /\ (Forall no_commit_key (splitlines content) ->
      get_template_version content = Some "unknown")
  /\ (forall pre line post key value,
        splitlines content = pre ++ line :: post ->
        Forall no_commit_key pre ->
        startswith line "_commit:" = true ->
        line = key +:+ ":" +:+ value ->
        contains ":" key = false ->
        get_template_version content = Some (strip value)).
Proof.
  unfold get_template_version. split; [apply version_lines_total|].
  split; [apply version_lines_unknown|].
  intros pre line post key value -> Hpre Hline -> Hkey.
  rewrite version_lines_skip by done. simpl. rewrite Hline.
  unfold split1.
  change (key +:+ ":" +:+ value) with (key +:+ String ":" value).
  by rewrite cut_char.
Qed.

Lemma get_template_version_spec_witness :
  get_template_version
    ("_src_path: ../template" +:+ nl +:+ "_commit: v1.2.3 " +:+ nl)
  = Some "v1.2.3".
Proof.
  refine (proj2 (proj2 (get_template_version_spec _))
            ["_src_path: ../template"] "_commit: v1.2.3 " [] "_commit" " v1.2.3 "
            _ _ _ _ _).
  - reflexivity.
  - repeat constructor.
  - reflexivity.
  - reflexivity.
  - reflexivity.
Defined.

End TemplateVersion.

(** ** The repository list *)
Section Repos.
Import Workspace.
Variable fs : pathlib.
Variable workspace_dir : string.

Definition folder_has_git (f : folder) : bool :=
  has_git fs (folder_resolved fs workspace_dir f).

Lemma get_repos_loop folders repos :
  fold_left
    (fun repos folder =>
       let path := resolve fs (joinpath fs workspace_dir (folder_path folder)) in
       let name := default (name fs path) (folder_name folder) in
       if negb (path_exists fs (joinpath fs path ".git")) then repos
       else repos ++ [(name, path)])
    folders repos
  = repos ++ map (folder_repo fs workspace_dir)
               (filter (fun f => folder_has_git f = true) folders).
Proof.
  revert repos. induction folders as [|f fs' IH]; intros repos; simpl.
  - by rewrite app_nil_r.
  - rewrite IH, filter_cons.
    case_decide as Hd; unfold folder_has_git, has_git, folder_resolved in Hd.
    + rewrite Hd. simpl. by rewrite <- app_assoc.
    + apply not_true_is_false in Hd. by rewrite Hd.
Qed.

(** C6, amended: [get_repos] returns the two fixed pairs first, without
    any check, then one pair for each folder entry whose resolved path
    contains [.git], in order; every returned pair is a fixed one or has
    such a path, and a folder entry without [.git] adds nothing. *)
Theorem get_repos_spec (folders : list folder) :
  get_repos fs workspace_dir folders
  = fixed_repos
      ++ map (folder_repo fs workspace_dir)
           (filter (fun f => folder_has_git f = true) folders)
  /\ (forall r, r ∈ get_repos fs workspace_dir folders ->
        r ∈ fixed_repos \/ has_git fs r.2 = true)
  /\ (forall f, f ∈ folders -> folder_has_git f = true ->
        folder_repo fs workspace_dir f ∈ get_repos fs workspace_dir folders)
  /\ (forall f, folder_has_git f = false ->
        get_repos fs workspace_dir (folders ++ [f])
        = get_repos fs workspace_dir folders).
Proof.
  assert (Heq : forall l, get_repos fs workspace_dir l
    = fixed_repos ++ map (folder_repo fs workspace_dir)
        (filter (fun f => folder_has_git f = true) l)).
  { intros l. unfold get_repos. by rewrite get_repos_loop. }
  split; [apply Heq|]. split; [|split].
  - intros r. rewrite Heq, elem_of_app, list_elem_of_fmap.
    intros [Hr|(f & -> & Hf)]; [by left|right].
    by apply list_elem_of_filter in Hf as [Hf _].
  - intros f Hf Hg. rewrite Heq, elem_of_app, list_elem_of_fmap.
    right. exists f. split; [done|]. by apply list_elem_of_filter.
  - intros f Hf. rewrite !Heq, filter_app, filter_cons, filter_nil.
    case_decide as Hd; [congruence|]. by rewrite app_nil_r.
Qed.

End Repos.

(** A file system where nothing has a [.git] directory. *)
Definition bare_fs : Workspace.pathlib :=
  Workspace.Pathlib (fun a b => a +:+ "/" +:+ b) (fun p => p) (fun p => p)
    (fun _ => false).

(** A file system where only [/ws/app] has one. *)
Definition one_repo_fs : Workspace.pathlib :=
  Workspace.Pathlib (fun a b => a +:+ "/" +:+ b) (fun p => p) (fun p => p)
    (fun p => String.eqb p "/ws/app/.git").

(** C6 as stated fails: the fixed pair [("frontend", "frontend")] is
    returned although [frontend/.git] does not exist. *)
Lemma get_repos_fixed_unchecked :
  ~ (forall r, r ∈ Workspace.get_repos bare_fs "/ws"
                     [Workspace.Folder "app" None] ->
               Workspace.has_git bare_fs r.2 = true).
Proof.
  intros H. specialize (H ("frontend", "frontend")).
  vm_compute in H. discriminate H. by left.
Qed.

Lemma get_repos_spec_witness :
  ("app", "/ws/app")
    ∈ Workspace.get_repos one_repo_fs "/ws"
        [Workspace.Folder "lib" None; Workspace.Folder "app" (Some "app")].
Proof.
  apply (proj1 (proj2 (proj2 (get_repos_spec one_repo_fs "/ws" _)))
           (Workspace.Folder "app" (Some "app"))).
  - right. left.
  - reflexivity.
Defined.

(** ** The push pre-flight *)
Section Push.
Import PyStr PushAll.
Context {World : Type}.
Variable subprocess_run : list string -> string -> World -> completed * World.

Abbreviation preflight := (preflight subprocess_run).
Abbreviation dirty_of := (dirty_of subprocess_run).
Abbreviation after_status := (after_status subprocess_run).
Abbreviation push_repo := (push_repo subprocess_run).
Abbreviation main := (main subprocess_run).

Lemma preflight_run repos acc (s : @state World) :
  preflight repos acc s
  = (acc ++ dirty_of repos (world s),
     State (after_status repos (world s))
           (calls s ++ map status_call repos) (printed s)).
Proof.
  revert acc s. induction repos as [|[name path] rest IH]; intros acc s.
  - simpl. rewrite !app_nil_r. by destruct s.
  - simpl. unfold bind, run.
    destruct (subprocess_run _ path (world s)) as [status w'] eqn:E.
    destruct (nonempty (strip (stdout status))); rewrite IH; simpl;
      by rewrite <- !app_assoc.
Qed.

Lemma for_each_print lines (s : @state World) :
  for_each lines print s
  = (tt, State (world s) (calls s) (printed s ++ lines)).
Proof.
  revert s. induction lines as [|l ls IH]; intros s.
  - simpl. rewrite app_nil_r. by destruct s.
  - simpl. unfold bind, print at 1. rewrite IH. simpl.
    by rewrite <- app_assoc.
Qed.

Lemma for_each_report dirty (s : @state World) :
  for_each dirty report_dirty s
  = (tt, State (world s) (calls s)
           (printed s ++ flat_map dirty_lines dirty)).
Proof.
  revert s. induction dirty as [|d ds IH]; intros s.
  - simpl. rewrite app_nil_r. by destruct s.
  - simpl. unfold bind, report_dirty at 1. rewrite for_each_print, IH.
    simpl. by rewrite <- app_assoc.
Qed.

Lemma push_repo_calls r (s : @state World) :
  calls (push_repo r s).2 = calls s ++ push_calls r.
Proof.
  destruct r as [name path]. unfold PushAll.push_repo, bind, print, run.
  simpl.
  destruct (subprocess_run ["git"; "push"] path (world s)) as [push w1].
  simpl.
  destruct (subprocess_run ["git"; "push"; "--tags"] path w1) as [tags w2].
  simpl.
  destruct (_ && _); simpl; by rewrite <- app_assoc.
Qed.

Lemma for_each_push_calls repos (s : @state World) :
  calls (for_each repos push_repo s).2 = calls s ++ flat_map push_calls repos.
Proof.
  revert s. induction repos as [|r rest IH]; intros s.
  - simpl. by rewrite app_nil_r.
  - simpl. unfold bind at 1.
    pose proof (push_repo_calls r s) as Hr.
    destruct (push_repo r s) as [[] s1]. simpl in Hr.
    rewrite IH, Hr. by rewrite <- app_assoc.
Qed.


End Push.

(** Three repositories A, B and C, of which only B is dirty. *)
Definition git_b_dirty (args : list string) (cwd : string) (w : unit)
    : PushAll.completed * unit :=
  match args with
  | ["git"; "status"; "--porcelain"] =>
      if String.eqb cwd "/ws/B"
      then (PushAll.Completed (" M app.py" +:+ PyStr.nl) "", w)
      else (PushAll.Completed "" "", w)
  | _ => (PushAll.Completed "" "Everything up-to-date", w)
  end.

Definition repos_abc : list Workspace.repo :=
  [("A", "/ws/A"); ("B", "/ws/B"); ("C", "/ws/C")].


(** ** Exclusion rules *)
Section Excludes.
Import PyStr Violations.

(** One round of the loop of [evaluate_excludes]. *)
Definition exclude_step (answers : gmap string yaml)
    (excluded : gset string) (entry : string) : gset string :=
  match pattern_match (strip entry) with
  | None => excluded
  | Some (flag_name, body) =>
      if negb (truthy (default (YBool false) (answers !! flag_name)))
      then excluded ∪ {[strip body]}
      else excluded
  end.

Lemma evaluate_excludes_fold config answers :
  evaluate_excludes config answers
  = fold_left (exclude_step answers) (default [] (cfg_exclude config)) ∅.
Proof. reflexivity. Qed.

Lemma exclude_step_mono answers excluded entry :
  excluded ⊆ exclude_step answers excluded entry.
Proof.
  unfold exclude_step. destruct (pattern_match _) as [[flag body]|]; [|done].
  destruct (negb _); set_solver.
Qed.

Lemma exclude_fold_mono answers entries excluded :
  excluded ⊆ fold_left (exclude_step answers) entries excluded.
Proof.
  revert excluded. induction entries as [|e es IH]; intros excluded; [done|].
  simpl. etrans; [apply exclude_step_mono|apply IH].
Qed.

(** C7: an [_exclude] entry that matches the pattern, whose flag is absent
    from the answers, puts its stripped path in the set that
    [evaluate_excludes] returns; the absent flag reads as [False]. *)
Theorem evaluate_excludes_absent_flag config answers entry flag_name body :
  entry ∈ default [] (cfg_exclude config) ->
  pattern_match (strip entry) = Some (flag_name, body) ->
  answers !! flag_name = None ->
  truthy (default (YBool false) (answers !! flag_name)) = false
  /\ strip body ∈ evaluate_excludes config answers.
Proof.
  intros Hin Hm Habs. split; [by rewrite Habs|].
  rewrite evaluate_excludes_fold.
  generalize (∅ : gset string).
  induction (default [] (cfg_exclude config)) as [|e es IH]; intros acc.
  - by apply elem_of_nil in Hin.
  - apply elem_of_cons in Hin as [<-|Hin]; simpl.
    + apply (exclude_fold_mono answers es). unfold exclude_step.
      rewrite Hm, Habs. simpl. set_solver.
    + by apply IH.
Qed.

End Excludes.

Lemma evaluate_excludes_absent_flag_witness :
  "app/extensions.py"
    ∈ Violations.evaluate_excludes
        (Violations.Config None None
           (Some ["{% if not use_s3 %}app/s3.py{% endif %}";
                  " {%if not use_database%} app/extensions.py {% endif %}"]))
        {["use_s3" := Violations.YBool true]}.
Proof.
  refine (proj2 (evaluate_excludes_absent_flag _ _
            " {%if not use_database%} app/extensions.py {% endif %}"
            "use_database" " app/extensions.py " _ _ _)).
  - right. left.
  - reflexivity.
  - reflexivity.
Defined.

(** ** Template file inventory *)
Section Inventory.
Import PyStr Violations.

Lemma length_append s t :
  String.length (s +:+ t) = String.length s + String.length t.
Proof. induction s as [|c s IH]; [done|]. rewrite append_cons. simpl. lia. Qed.

Lemma append_assoc s t u : (s +:+ t) +:+ u = s +:+ t +:+ u.
Proof.
  induction s as [|c s IH]; [done|]. rewrite !append_cons. by rewrite IH.
Qed.

Lemma append_cancel_r s t suf : s +:+ suf = t +:+ suf -> s = t.
Proof.
  revert t. induction s as [|c s IH]; intros [|d t] H; [done| | |].
  - apply (f_equal String.length) in H. rewrite !length_append in H.
    simpl in H. lia.
  - apply (f_equal String.length) in H. rewrite !length_append in H.
    simpl in H. lia.
  - rewrite !append_cons in H. injection H as -> H. f_equal. by apply IH.
Qed.

Lemma take_append s t : take (String.length s) (s +:+ t) = s.
Proof.
  induction s as [|c s IH]; [by destruct t|].
  rewrite append_cons. simpl. by rewrite IH.
Qed.

Lemma endswith_append s suf : endswith (s +:+ suf) suf = true.
Proof.
  induction s as [|c s IH].
  - rewrite append_nil. destruct suf; [done|].
    unfold endswith; fold endswith. by rewrite String.eqb_refl.
  - rewrite append_cons. unfold endswith; fold endswith.
    rewrite IH. apply orb_true_r.
Qed.

Lemma endswith_split s suf :
  endswith s suf = true -> exists a, s = a +:+ suf.
Proof.
  induction s as [|c s IH]; intros H; unfold endswith in H; fold endswith in H.
  - rewrite orb_false_r in H. apply String.eqb_eq in H as <-. by exists "".
  - apply orb_true_iff in H as [H|H].
    + apply String.eqb_eq in H as <-. by exists "".
    + destruct (IH H) as [a ->]. by exists (String c a).
Qed.

Lemma slice_to_neg_append s suf :
  slice_to_neg (s +:+ suf) (String.length suf) = s.
Proof.
  unfold slice_to_neg. rewrite length_append.
  replace (String.length s + String.length suf - String.length suf)
    with (String.length s) by lia.
  apply take_append.
Qed.

(** The files the loop of [enumerate_template_files] keeps, and the
    triple it makes of each. *)
Definition kept (p : dir_entry) : Prop :=
  entry_is_file p = true
  /\ (contains "{{" (entry_rel p) || contains "{%" (entry_rel p)) = false.

#[local] Instance kept_dec p : Decision (kept p).
Proof. unfold kept. apply _. Defined.

Definition triple_of (rel : string) : triple :=
  let is_jinja := endswith rel ".jinja" in
  (if is_jinja then slice_to_neg rel (String.length ".jinja") else rel,
   rel, is_jinja).

Lemma enumerate_loop l files :
  fold_left
    (fun files p =>
       if negb (entry_is_file p) then files
       else
         let rel := entry_rel p in
         if contains "{{" rel || contains "{%" rel then files
         else
           let is_jinja := endswith rel ".jinja" in
           let output_path :=
             if is_jinja then slice_to_neg rel (String.length ".jinja")
             else rel in
           files ++ [(output_path, rel, is_jinja)])
    l files
  = files ++ map (fun p => triple_of (entry_rel p)) (filter kept l).
Proof.
  revert files. induction l as [|p l IH]; intros files; simpl.
  - by rewrite app_nil_r.
  - rewrite IH, filter_cons. case_decide as Hk.
    + destruct Hk as [Hf Hc]. rewrite Hf, Hc. simpl. by rewrite <- app_assoc.
    + destruct (entry_is_file p) eqn:Hf; simpl; [|done].
      destruct (contains "{{" _ || contains "{%" _) eqn:Hc; [done|].
      exfalso. apply Hk. by split.
Qed.

Lemma enumerate_template_files_eq listing :
  enumerate_template_files listing
  = map (fun p => triple_of (entry_rel p)) (filter kept (sorted listing)).
Proof. unfold enumerate_template_files. by rewrite enumerate_loop. Qed.

Lemma insert_sorted_perm p l : insert_sorted p l ≡ₚ p :: l.
Proof.
  induction l as [|q l IH]; simpl; [done|].
  destruct (path_ltb p q); [done|]. rewrite IH. apply Permutation_swap.
Qed.

Lemma sorted_perm l : sorted l ≡ₚ l.
Proof.
  unfold sorted. rewrite <- (app_nil_r l) at 2. generalize (@nil dir_entry).
  induction l as [|p l IH]; intros acc; simpl; [done|].
  rewrite IH, insert_sorted_perm. by rewrite Permutation_middle.
Qed.

(** Every regular file without template delimiters in its name is
    enumerated, and nothing else. *)
Lemma enumerate_template_files_elem listing t :
  t ∈ enumerate_template_files listing
  <-> exists p, p ∈ listing /\ kept p /\ t = triple_of (entry_rel p).
Proof.
  rewrite enumerate_template_files_eq, list_elem_of_fmap.
  split.
  - intros (p & -> & Hp). apply list_elem_of_filter in Hp as [Hk Hp].
    rewrite sorted_perm in Hp. eauto.
  - intros (p & Hp & Hk & ->). exists p. split; [done|].
    apply list_elem_of_filter. by rewrite sorted_perm.
Qed.

(** C5, amended: for every enumerated triple the flag is the test of the
    [".jinja"] suffix; a source path with the suffix is its output path
    followed by the suffix, one occurrence being stripped, so the output
    path ends with [".jinja"] exactly when the source path ends with
    [".jinja.jinja"]; a source path without the suffix is its own output
    path. *)
Theorem enumerate_output_path listing output_path source_path is_jinja :
  (output_path, source_path, is_jinja) ∈ enumerate_template_files listing ->
  is_jinja = endswith source_path ".jinja"
  /\ (endswith source_path ".jinja" = true ->
        source_path = output_path +:+ ".jinja"
        /\ output_path = slice_to_neg source_path (String.length ".jinja")
        /\ endswith output_path ".jinja"
           = endswith source_path ".jinja.jinja")
  /\ (endswith source_path ".jinja" = false -> output_path = source_path).
Proof.
  intros Hin. apply enumerate_template_files_elem in Hin as (p & _ & _ & Ht).
  unfold triple_of in Ht. injection Ht as -> -> ->.
  split; [done|]. split.
  - intros Hj. rewrite Hj. destruct (endswith_split _ _ Hj) as [a Ha].
    rewrite Ha, slice_to_neg_append. split; [done|].
    split; [by rewrite slice_to_neg_append|].
    destruct (endswith a ".jinja") eqn:Ea.
    + destruct (endswith_split _ _ Ea) as [b ->].
      rewrite append_assoc. symmetry.
      apply (endswith_append b ".jinja.jinja").
    + symmetry. apply not_true_is_false. intros Hjj.
      destruct (endswith_split _ _ Hjj) as [b Hb].
      change ".jinja.jinja" with (".jinja" +:+ ".jinja") in Hb.
      rewrite <- append_assoc in Hb. apply append_cancel_r in Hb as ->.
      by rewrite endswith_append in Ea.
  - by intros ->.
Qed.

End Inventory.

(** C5 as stated fails: [x.jinja.jinja] has the suffix, and its output
    path [x.jinja] still ends with it. *)
Lemma enumerate_output_keeps_suffix :
  ("x.jinja", "x.jinja.jinja", true)
    ∈ Violations.enumerate_template_files
        [Violations.DirEntry "x.jinja.jinja" true]
  /\ PyStr.endswith "x.jinja.jinja" ".jinja" = true
  /\ PyStr.endswith "x.jinja" ".jinja" = true.
Proof. split; [left|split; reflexivity]. Qed.

Lemma enumerate_output_path_witness :
  "app/config.py.jinja" = "app/config.py" +:+ ".jinja"
  /\ PyStr.endswith "app/config.py" ".jinja" = false.
Proof.
  destruct (enumerate_output_path
              [Violations.DirEntry "app" false;
               Violations.DirEntry "app/config.py.jinja" true]
              "app/config.py" "app/config.py.jinja" true) as (_ & H & _).
  - left.
  - destruct (H eq_refl) as (H1 & _ & H3). split; [exact H1|exact H3].
Defined.

(** ** Classification *)
Section Classify.
Import PyStr Violations.
Variable skip_if_exists excluded : gset string.

(** The three classes, as tests on an output path. *)
Definition is_app_owned (t : triple) : Prop := output_of t ∈ skip_if_exists.

Definition is_excluded_file (t : triple) : Prop :=
  (output_of t ∉ skip_if_exists) /\ is_excluded excluded (output_of t) = true.

Definition is_template_owned (t : triple) : Prop :=
  (output_of t ∉ skip_if_exists) /\ is_excluded excluded (output_of t) = false.

Ltac class_solve :=
  unfold is_app_owned, is_excluded_file, is_template_owned, output_of in *;
  simpl in *; intuition congruence.

#[local] Instance is_app_owned_dec t : Decision (is_app_owned t).
Proof. unfold is_app_owned. apply _. Defined.

#[local] Instance is_excluded_file_dec t : Decision (is_excluded_file t).
Proof. unfold is_excluded_file. apply _. Defined.

#[local] Instance is_template_owned_dec t : Decision (is_template_owned t).
Proof. unfold is_template_owned. apply _. Defined.

Lemma classify_loop all_files template_owned app_owned excluded_files :
  fold_left
    (fun '(template_owned, app_owned, excluded_files)
         '(output_path, source_path, is_jinja) =>
       if bool_decide (output_path ∈ skip_if_exists) then
         (template_owned, app_owned ++ [output_path], excluded_files)
       else if is_excluded excluded output_path then
         (template_owned, app_owned, excluded_files ++ [output_path])
       else
         (template_owned ++ [(output_path, source_path, is_jinja)],
          app_owned, excluded_files))
    all_files (template_owned, app_owned, excluded_files)
  = (template_owned ++ filter is_template_owned all_files,
     app_owned ++ map output_of (filter is_app_owned all_files),
     excluded_files ++ map output_of (filter is_excluded_file all_files)).
Proof.
  revert template_owned app_owned excluded_files.
  induction all_files as [|[[o s] j] l IH]; intros T A E; simpl.
  - by rewrite !app_nil_r.
  - rewrite !filter_cons. case_bool_decide as Hs.
    + rewrite IH. rewrite (decide_True (P := is_app_owned _)) by class_solve.
      rewrite (decide_False (P := is_template_owned _)) by class_solve.
      rewrite (decide_False (P := is_excluded_file _)) by class_solve.
      simpl. by rewrite <- app_assoc.
    + destruct (is_excluded excluded o) eqn:He; rewrite IH.
      * rewrite (decide_False (P := is_app_owned _)) by class_solve.
        rewrite (decide_False (P := is_template_owned _)) by class_solve.
        rewrite (decide_True (P := is_excluded_file _)) by class_solve.
        simpl. by rewrite <- app_assoc.
      * rewrite (decide_False (P := is_app_owned _)) by class_solve.
        rewrite (decide_True (P := is_template_owned _)) by class_solve.
        rewrite (decide_False (P := is_excluded_file _)) by class_solve.
        simpl. by rewrite <- app_assoc.
Qed.

Lemma classify_files_eq listing :
  classify_files listing skip_if_exists excluded
  = (filter is_template_owned (enumerate_template_files listing),
     map output_of (filter is_app_owned (enumerate_template_files listing)),
     map output_of (filter is_excluded_file (enumerate_template_files listing))).
Proof. unfold classify_files. by rewrite classify_loop. Qed.

Lemma class_cases t :
  is_template_owned t \/ is_app_owned t \/ is_excluded_file t.
Proof.
  unfold is_template_owned, is_app_owned, is_excluded_file.
  destruct (decide (output_of t ∈ skip_if_exists)); [by auto|].
  destruct (is_excluded excluded (output_of t)); by auto.
Qed.

Lemma filter_three_length (l : list triple) :
  length (filter is_template_owned l) + length (filter is_app_owned l)
  + length (filter is_excluded_file l) = length l.
Proof.
  induction l as [|t l IH]; [done|]. rewrite !filter_cons.
  destruct (class_cases t) as [H|[H|H]].
  - rewrite (decide_True (P := is_template_owned _)) by done.
    rewrite (decide_False (P := is_app_owned _)) by class_solve.
    rewrite (decide_False (P := is_excluded_file _)) by class_solve.
    simpl. lia.
  - rewrite (decide_False (P := is_template_owned _)) by class_solve.
    rewrite (decide_True (P := is_app_owned _)) by done.
    rewrite (decide_False (P := is_excluded_file _)) by class_solve.
    simpl. lia.
  - rewrite (decide_False (P := is_template_owned _)) by class_solve.
    rewrite (decide_False (P := is_app_owned _)) by class_solve.
    rewrite (decide_True (P := is_excluded_file _)) by done.
    simpl. lia.
Qed.

(** C2: the three collections [classify_files] returns are pairwise
    disjoint as sets of output paths, their union is the set of output
    paths of the enumerated files, every template-owned triple is an
    enumerated one, and the three sizes add up to the number of
    enumerated files. *)
Theorem classify_files_partition (listing : list dir_entry) :
  let all_files := enumerate_template_files listing in
  let '(template_owned, app_owned, excluded_files) :=
    classify_files listing skip_if_exists excluded in
  let T : gset string := list_to_set (map output_of template_owned) in
  let A : gset string := list_to_set app_owned in
  let E : gset string := list_to_set excluded_files in
  T ## A /\ T ## E /\ A ## E
  /\ T ∪ A ∪ E = list_to_set (map output_of all_files)
  /\ template_owned ⊆ all_files
  /\ length template_owned + length app_owned + length excluded_files
     = length all_files.
Proof.
  intros all_files. rewrite classify_files_eq. fold all_files.
  assert (HT : forall p, p ∈ map output_of (filter is_template_owned all_files)
    <-> exists t, t ∈ all_files /\ is_template_owned t /\ output_of t = p).
  { intros p. rewrite list_elem_of_fmap. setoid_rewrite list_elem_of_filter.
    naive_solver. }
  assert (HA : forall p, p ∈ map output_of (filter is_app_owned all_files)
    <-> exists t, t ∈ all_files /\ is_app_owned t /\ output_of t = p).
  { intros p. rewrite list_elem_of_fmap. setoid_rewrite list_elem_of_filter.
    naive_solver. }
  assert (HE : forall p, p ∈ map output_of (filter is_excluded_file all_files)
    <-> exists t, t ∈ all_files /\ is_excluded_file t /\ output_of t = p).
  { intros p. rewrite list_elem_of_fmap. setoid_rewrite list_elem_of_filter.
    naive_solver. }
  repeat split.
  - intros p. rewrite !elem_of_list_to_set, HT, HA.
    intros (t & _ & [Hn _] & <-) (t' & _ & Hs & Heq).
    unfold is_app_owned in Hs. by rewrite Heq in Hs.
  - intros p. rewrite !elem_of_list_to_set, HT, HE.
    intros (t & _ & [_ Hx] & <-) (t' & _ & [_ Hy] & Heq).
    rewrite Heq in Hy. congruence.
  - intros p. rewrite !elem_of_list_to_set, HA, HE.
    intros (t & _ & Hs & <-) (t' & _ & [Hn _] & Heq).
    unfold is_app_owned in Hs. by rewrite Heq in Hn.
  - apply set_eq. intros p.
    rewrite !elem_of_union, !elem_of_list_to_set, HT, HA, HE, list_elem_of_fmap.
    split; [naive_solver|].
    intros (t & -> & Ht). destruct (class_cases t); naive_solver.
  - intros t Ht. by apply list_elem_of_filter in Ht as [_ Ht].
  - rewrite !length_map. apply filter_three_length.
Qed.

(** C8: an enumerated file whose output path is in the app-owned set is
    classified app-owned, and neither excluded nor template-owned,
    whatever the excluded set holds. *)
Theorem classify_app_owned_first (listing : list dir_entry) (t : triple) :
  t ∈ enumerate_template_files listing ->
  output_of t ∈ skip_if_exists ->
  let '(template_owned, app_owned, excluded_files) :=
    classify_files listing skip_if_exists excluded in
  output_of t ∈ app_owned
  /\ (output_of t ∉ excluded_files)
  /\ (output_of t ∉ map output_of template_owned).
Proof.
  intros Ht Hs. rewrite classify_files_eq. split; [|split].
  - apply list_elem_of_fmap. exists t. split; [done|].
    by apply list_elem_of_filter.
  - intros (t' & Heq & Hin)%list_elem_of_fmap.
    apply list_elem_of_filter in Hin as [[Hn _] _]. by rewrite <- Heq in Hn.
  - intros (t' & Heq & Hin)%list_elem_of_fmap.
    apply list_elem_of_filter in Hin as [[Hn _] _]. by rewrite <- Heq in Hn.
Qed.

End Classify.

Lemma classify_app_owned_first_witness :
  "app/config.py" ∈ ["app/config.py"]
  /\ ("app/config.py" ∉ ["app/models.py"])
  /\ ("app/config.py" ∉ map Violations.output_of [("README.md", "README.md", false)]).
Proof.
  exact (classify_app_owned_first {["app/config.py"]} {["app"; "app/config.py"]}
           [Violations.DirEntry "app/config.py" true;
            Violations.DirEntry "app/models.py" true;
            Violations.DirEntry "README.md" true]
           ("app/config.py", "app/config.py", false)
           ltac:(right; left) ltac:(set_solver)).
Defined.

(** ** Lists *)
Section ListFacts.
Context {A B : Type}.

Lemma filter_map_comm (f : A -> B) (P : B -> Prop) `{!forall y, Decision (P y)}
    (l : list A) :
  filter P (map f l) = map f (filter (fun x => P (f x)) l).
Proof.
  induction l as [|x l IH]; [done|]. simpl. rewrite !filter_cons, IH.
  by destruct (decide (P (f x))).
Qed.

Lemma filter_ext_elem (P Q : A -> Prop) `{!forall x, Decision (P x)}
    `{!forall x, Decision (Q x)} (l : list A) :
  (forall x, x ∈ l -> P x <-> Q x) -> filter P l = filter Q l.
Proof.
  induction l as [|x l IH]; intros Hext; [done|]. rewrite !filter_cons.
  rewrite IH by (intros y Hy; apply Hext; by right).
  destruct (decide (P x)) as [Hp|Hp], (decide (Q x)) as [Hq|Hq]; try done.
  - destruct Hq. by apply (Hext x); [left|].
  - destruct Hp. by apply (Hext x); [left|].
Qed.

Lemma filter_complement_length (P : A -> Prop) `{!forall x, Decision (P x)}
    (l : list A) :
  length (filter P l) + length (filter (fun x => ~ P x) l) = length l.
Proof.
  induction l as [|x l IH]; [done|]. rewrite !filter_cons.
  destruct (decide (P x)), (decide (~ P x)); simpl; try lia; tauto.
Qed.

Lemma NoDup_map_elem_inj (f : A -> B) (l : list A) x y :
  NoDup (map f l) -> x ∈ l -> y ∈ l -> f x = f y -> x = y.
Proof.
  induction l as [|z l IH]; simpl; intros Hnd Hx Hy Hf.
  - by apply elem_of_nil in Hx.
  - apply NoDup_cons in Hnd as [Hz Hnd].
    apply elem_of_cons in Hx as [->|Hx]; apply elem_of_cons in Hy as [->|Hy].
    + done.
    + destruct Hz. rewrite Hf. apply list_elem_of_fmap. eauto.
    + destruct Hz. rewrite <- Hf. apply list_elem_of_fmap. eauto.
    + by apply IH.
Qed.

Lemma NoDup_map_filter (f : A -> B) (P : A -> Prop)
    `{!forall x, Decision (P x)} (l : list A) :
  NoDup (map f l) -> NoDup (map f (filter P l)).
Proof.
  intros Hnd. eapply sublist_NoDup; [exact Hnd|].
  apply (fmap_sublist f). apply sublist_filter.
Qed.

End ListFacts.

(** ** Listings of a report *)

(** The output paths listed under each heading. *)
Definition post_adoption_files (r : Violations.report) : list string :=
  map Violations.v_file (Violations.r_git_violations r).

Definition pre_existing_files (r : Violations.report) : list string :=
  map Violations.d_file (Violations.r_pre_existing r).

Definition jinja_only_files (r : Violations.report) : list string :=
  map Violations.j_file (Violations.r_jinja_non_git r).

Definition diverged_files (r : Violations.report) : list string :=
  map Violations.d_file (Violations.r_diverged r).

Definition also_diverged_files (r : Violations.report) : list string :=
  map Violations.d_file (Violations.r_also_diverged r).

(** A template-owned file that no heading lists. *)
Definition unlisted (r : Violations.report) (t : Violations.triple) : Prop :=
  (Violations.output_of t ∉ post_adoption_files r)
  /\ (Violations.output_of t ∉ pre_existing_files r)
  /\ (Violations.output_of t ∉ jinja_only_files r)
  /\ (Violations.output_of t ∉ Violations.r_missing r).

#[local] Instance unlisted_dec r t : Decision (unlisted r t).
Proof. unfold unlisted. apply _. Defined.

(** How many times [x] occurs in [l]. *)
Definition occurrences (x : string) (l : list string) : nat :=
  length (filter (fun y => y = x) l).

Arguments occurrences : simpl never.

Lemma occurrences_app x l1 l2 :
  occurrences x (l1 ++ l2) = occurrences x l1 + occurrences x l2.
Proof. unfold occurrences. by rewrite filter_app, length_app. Qed.

Lemma occurrences_not_elem x l : x ∉ l -> occurrences x l = 0.
Proof.
  unfold occurrences. induction l as [|y l IH]; intros Hx; [done|].
  rewrite filter_cons. apply not_elem_of_cons in Hx as [Hne Hx].
  rewrite decide_False by done. by apply IH.
Qed.

Lemma occurrences_NoDup x l : NoDup l -> x ∈ l -> occurrences x l = 1.
Proof.
  unfold occurrences. induction 1 as [|y l Hy Hnd IH]; intros Hx.
  - by apply elem_of_nil in Hx.
  - rewrite filter_cons. apply elem_of_cons in Hx as [->|Hx].
    + rewrite decide_True by done. simpl. f_equal.
      by apply occurrences_not_elem.
    + rewrite decide_False by (intros ->; done). by apply IH.
Qed.

(** ** The drift report *)
Section Drift.
Import PyStr Violations.
Variable w : env.
Variables app_dir template_dir copier_commit : string.

(** The three facts about a template-owned file. *)
Definition in_app (output_path : string) : bool :=
  path_exists w (joinpath w app_dir output_path).

Definition modified (output_path : string) : bool :=
  file_modified_since w app_dir copier_commit output_path.

(** What a read returned, when it returned. *)
Definition contents (r : result string) : string :=
  match r with Ok s => s | Raise _ => "" end.

Definition differs (t : triple) : bool :=
  negb (String.eqb
          (contents (read_bytes w (joinpath w app_dir (output_of t))))
          (contents (read_bytes w (joinpath w template_dir (source_of t))))).

(** The reads that [compare_to_source] makes for a template-owned file
    all return. *)
Definition readable (t : triple) : Prop :=
  path_exists w (joinpath w app_dir (output_of t)) = true ->
  is_jinja_of t = false ->
  exists app_content template_content,
    read_bytes w (joinpath w app_dir (output_of t)) = Ok app_content
    /\ read_bytes w (joinpath w template_dir (source_of t))
       = Ok template_content
    /\ (app_content <> template_content ->
        exists app_text template_text,
          read_text w (joinpath w app_dir (output_of t)) = Ok app_text
          /\ read_text w (joinpath w template_dir (source_of t))
             = Ok template_text).

(** The records the loops make. *)
Definition violation_of (t : triple) : violation :=
  let diff_text := get_diff w app_dir copier_commit (output_of t) in
  Violation (output_of t) (count_diff_lines diff_text).1
    (count_diff_lines diff_text).2 diff_text
    (get_commit_log_for_file w app_dir copier_commit (output_of t)).

Definition divergence_of (t : triple) : divergence :=
  let app_file := joinpath w app_dir (output_of t) in
  let template_file := joinpath w template_dir (source_of t) in
  let diff_text :=
    String.concat ""
      (unified_diff w
         (splitlines_keepends (contents (read_text w template_file)))
         (splitlines_keepends (contents (read_text w app_file)))
         ("template/" +:+ source_of t) (output_of t)) in
  Divergence (output_of t) (source_of t) (count_diff_lines diff_text).1
    (count_diff_lines diff_text).2 diff_text.

Definition jinja_of (t : triple) : jinja_file :=
  JinjaFile (output_of t) (source_of t).

(** The class of a template-owned file in the report. *)
Inductive finding := Missing | PostAdoption | JinjaOnly | PreExisting | Matches.

#[local] Instance finding_eq_dec : EqDecision finding.
Proof. solve_decision. Defined.

Definition finding_of (t : triple) : finding :=
  if negb (in_app (output_of t)) then Missing
  else if modified (output_of t) then PostAdoption
  else if is_jinja_of t then JinjaOnly
  else if differs t then PreExisting
  else Matches.

Lemma scan_git_loop l git_violations missing :
  fold_left
    (fun '(git_violations, missing) '(output_path, _source_path, _is_jinja) =>
       let full_path := joinpath w app_dir output_path in
       if negb (path_exists w full_path) then
         (git_violations, missing ++ [output_path])
       else if file_modified_since w app_dir copier_commit output_path then
         let diff_text := get_diff w app_dir copier_commit output_path in
         let '(added, removed) := count_diff_lines diff_text in
         let commits :=
           get_commit_log_for_file w app_dir copier_commit output_path in
         (git_violations
            ++ [Violation output_path added removed diff_text commits],
          missing)
       else (git_violations, missing))
    l (git_violations, missing)
  = (git_violations
       ++ map violation_of
            (filter (fun t => in_app (output_of t) = true
                              /\ modified (output_of t) = true) l),
     missing
       ++ map output_of (filter (fun t => in_app (output_of t) = false) l)).
Proof.
  revert git_violations missing.
  induction l as [|[[o s] j] l IH]; intros G M; simpl.
  - by rewrite !app_nil_r.
  - rewrite !filter_cons. unfold output_of at 1 2 3. simpl.
    fold (in_app o) (modified o).
    case_decide as H1; case_decide as H2;
      unfold output_of in H1, H2; simpl in H1, H2;
      destruct (in_app o) eqn:Ei; destruct (modified o) eqn:Em; simpl;
      try (exfalso; intuition congruence);
      try destruct (count_diff_lines _) as [added removed] eqn:Ec;
      rewrite IH; simpl; unfold violation_of, output_of; simpl;
      rewrite ?Ec; simpl; by rewrite <- ?app_assoc.
Qed.

Lemma scan_git_eq l :
  scan_git w app_dir copier_commit l
  = (map violation_of
       (filter (fun t => in_app (output_of t) = true
                         /\ modified (output_of t) = true) l),
     map output_of (filter (fun t => in_app (output_of t) = false) l)).
Proof. unfold scan_git. by rewrite scan_git_loop. Qed.

(** The template-owned files behind the two lists of
    [compare_to_source]. *)
Definition diverged_part (l : list triple) : list triple :=
  filter (fun t => in_app (output_of t) = true
                   /\ is_jinja_of t = false /\ differs t = true) l.

Definition jinja_part (l : list triple) : list triple :=
  filter (fun t => in_app (output_of t) = true /\ is_jinja_of t = true) l.

Lemma compare_raise l e :
  fold_left (compare_step w app_dir template_dir) l (Raise e) = Raise e.
Proof. induction l as [|t l IH]; [done|]. exact IH. Qed.

(** One turn of the loop that does not raise. *)
Lemma compare_step_ok diverged jinja_files t diverged' jinja_files' :
  compare_step w app_dir template_dir (Ok (diverged, jinja_files)) t
  = Ok (diverged', jinja_files') ->
  diverged' = diverged ++ map divergence_of (diverged_part [t])
  /\ jinja_files' = jinja_files ++ map jinja_of (jinja_part [t])
  /\ readable t.
Proof.
  destruct t as [[o s] j].
  unfold compare_step, diverged_part, jinja_part, readable, differs,
    divergence_of, jinja_of, in_app, output_of, source_of, is_jinja_of.
  rewrite !filter_cons, !filter_nil. simpl.
  destruct (path_exists w (joinpath w app_dir o)) eqn:Ei; simpl.
  2:{ intros [= <- <-]. rewrite !app_nil_r. repeat split; congruence. }
  destruct j; simpl.
  { intros [= <- <-]. rewrite ?app_nil_r. repeat split; congruence. }
  destruct (read_bytes w (joinpath w app_dir o)) as [a|] eqn:Ea; [|done].
  destruct (read_bytes w (joinpath w template_dir s)) as [b|] eqn:Eb; [|done].
  simpl. destruct (String.eqb a b) eqn:Eab; simpl.
  - intros [= <- <-].
    rewrite !app_nil_r. repeat split; try done.
    intros _ _. exists a, b. repeat split; try done.
    apply String.eqb_eq in Eab. congruence.
  - destruct (read_text w (joinpath w app_dir o)) as [ta|] eqn:Eta; [|done].
    destruct (read_text w (joinpath w template_dir s)) as [tb|] eqn:Etb;
      [|done].
    simpl. destruct (count_diff_lines _) as [added removed] eqn:Ec.
    intros [= <- <-].
    simpl. rewrite ?Ec, ?app_nil_r. repeat split; try done.
    intros _ _. exists a, b. repeat split; try done.
    intros _. by exists ta, tb.
Qed.

Lemma compare_loop l : forall diverged jinja_files diverged' jinja_files',
  fold_left (compare_step w app_dir template_dir) l (Ok (diverged, jinja_files))
  = Ok (diverged', jinja_files') ->
  diverged' = diverged ++ map divergence_of (diverged_part l)
  /\ jinja_files' = jinja_files ++ map jinja_of (jinja_part l)
  /\ Forall readable l.
Proof.
  induction l as [|t l IH]; intros D J D' J'.
  - simpl. intros [= <- <-]. by rewrite !app_nil_r.
  - cbn [fold_left].
    destruct (compare_step w app_dir template_dir (Ok (D, J)) t)
      as [[D1 J1]|e] eqn:Et.
    2:{ rewrite compare_raise. discriminate. }
    intros Hl. apply compare_step_ok in Et as (-> & -> & Hr).
    apply IH in Hl as (-> & -> & Hrs).
    change (t :: l) with ([t] ++ l).
    unfold diverged_part, jinja_part.
    rewrite !filter_app, !map_app, <- !app_assoc.
    repeat split; try done. by apply Forall_cons_2.
Qed.

(** When the comparison returns, its lists are those of the files it
    found diverged and of the Jinja files, and every read it made
    returned. *)
Lemma compare_to_source_eq l diverged jinja_files :
  compare_to_source w app_dir template_dir l = Ok (diverged, jinja_files) ->
  diverged = map divergence_of (diverged_part l)
  /\ jinja_files = map jinja_of (jinja_part l)
  /\ Forall readable l.
Proof. unfold compare_to_source. intros H. by apply compare_loop in H. Qed.

(** When the comparison raises, some read that it made raised. *)
Lemma compare_to_source_raises l e :
  compare_to_source w app_dir template_dir l = Raise e ->
  exists t, t ∈ l /\ in_app (output_of t) = true /\ is_jinja_of t = false
    /\ (read_bytes w (joinpath w app_dir (output_of t)) = Raise e
        \/ read_bytes w (joinpath w template_dir (source_of t)) = Raise e
        \/ read_text w (joinpath w app_dir (output_of t)) = Raise e
        \/ read_text w (joinpath w template_dir (source_of t)) = Raise e).
Proof.
  unfold compare_to_source. generalize (@nil divergence) (@nil jinja_file).
  induction l as [|t l IH]; intros D J; [done|].
  cbn [fold_left].
  destruct (compare_step w app_dir template_dir (Ok (D, J)) t)
    as [[D1 J1]|e'] eqn:Et.
  - intros (t' & Ht' & H)%IH. exists t'. split; [by right|done].
  - rewrite compare_raise. intros [= ->]. exists t. split; [by left|].
    destruct t as [[o s] j]. revert Et.
    unfold compare_step, in_app, output_of, source_of, is_jinja_of. simpl.
    destruct (path_exists w (joinpath w app_dir o)); simpl; [|done].
    destruct j; simpl; [done|].
    destruct (read_bytes w (joinpath w app_dir o)) as [a|];
      [|intros [= ->]; auto].
    destruct (read_bytes w (joinpath w template_dir s)) as [b|];
      [|intros [= ->]; auto].
    destruct (negb (String.eqb a b)); [|done].
    destruct (read_text w (joinpath w app_dir o)) as [ta|];
      [|intros [= ->]; auto 6].
    destruct (read_text w (joinpath w template_dir s)) as [tb|];
      [|intros [= ->]; auto 6].
    simpl. by destruct (count_diff_lines _).
Qed.

(** The template-owned files behind each list of findings. *)
Definition git_part (l : list triple) : list triple :=
  filter (fun t => in_app (output_of t) = true
                   /\ modified (output_of t) = true) l.

Definition missing_part (l : list triple) : list triple :=
  filter (fun t => in_app (output_of t) = false) l.

Definition git_files (l : list triple) : gset string :=
  list_to_set (map v_file (map violation_of (git_part l))).

(** The report in closed form. *)
Definition report_of (l : list triple) (app_owned excluded_files : list string)
    : report :=
  let git_violations := map violation_of (git_part l) in
  let missing := map output_of (missing_part l) in
  let diverged := map divergence_of (diverged_part l) in
  let jinja_files := map jinja_of (jinja_part l) in
  let pre_existing := filter (fun d => d_file d ∉ git_files l) diverged in
  let violation_files : gset string :=
    git_files l ∪ list_to_set (map d_file pre_existing) in
  let missing_set : gset string := list_to_set missing in
  let jinja_only_count :=
    len (filter (fun j => (j_file j ∉ violation_files)
                          /\ (j_file j ∉ missing_set)) jinja_files) in
  Report l app_owned excluded_files git_violations diverged jinja_files
    pre_existing
    (filter (fun j => j_file j ∉ git_files l) jinja_files)
    (filter (fun d => d_file d ∈ git_files l) diverged)
    missing (len l)
    (len l - Z.of_nat (size violation_files)
     - Z.of_nat (size missing_set) - jinja_only_count)%Z
    jinja_only_count (len git_violations) (len pre_existing) (len missing)
    (nonempty_list git_violations || nonempty_list pre_existing).

Lemma find_violations_eq l app_owned excluded_files r :
  find_violations w app_dir template_dir copier_commit l
    app_owned excluded_files = Ok r ->
  r = report_of l app_owned excluded_files /\ Forall readable l.
Proof.
  unfold find_violations. rewrite scan_git_eq.
  destruct (compare_to_source w app_dir template_dir l) as [[d j]|e] eqn:Ec;
    [|done].
  apply compare_to_source_eq in Ec as (-> & -> & Hr).
  fold (git_part l) (missing_part l). fold (git_files l). cbv zeta.
  intros [= <-]. split; [|done]. unfold report_of. cbv zeta. f_equal.
  by destruct (nonempty_list (map violation_of (git_part l))),
    (nonempty_list (filter _ _)).
Qed.

(** The comparison raises or the report is made. *)
Lemma find_violations_raises l app_owned excluded_files e :
  find_violations w app_dir template_dir copier_commit l
    app_owned excluded_files = Raise e ->
  compare_to_source w app_dir template_dir l = Raise e.
Proof.
  unfold find_violations. destruct (scan_git _ _ _ _) as [g m].
  destruct (compare_to_source w app_dir template_dir l) as [[d j]|e'];
    [discriminate|by intros [= ->]].
Qed.

(** Each list of findings is one class of [finding_of]. *)
Ltac finding_cases :=
  unfold finding_of, output_of, is_jinja_of in *; simpl in *;
  repeat match goal with
         | |- context [in_app ?x] => destruct (in_app x) eqn:?; simpl in *
         | |- context [modified ?x] => destruct (modified x) eqn:?; simpl in *
         | |- context [differs ?x] => destruct (differs x) eqn:?; simpl in *
         | |- context [if ?b then _ else _] => destruct b eqn:?; simpl in *
         end;
  intuition congruence.

Lemma git_part_class l :
  git_part l = filter (fun t => finding_of t = PostAdoption) l.
Proof. apply list_filter_iff. intros [[o s] j]. finding_cases. Qed.

Lemma missing_part_class l :
  missing_part l = filter (fun t => finding_of t = Missing) l.
Proof. apply list_filter_iff. intros [[o s] j]. finding_cases. Qed.

Lemma git_files_outputs l :
  git_files l = list_to_set (map output_of (git_part l)).
Proof. unfold git_files. by rewrite map_map. Qed.

Lemma git_files_elem l f :
  f ∈ git_files l
  <-> (f ∈ map output_of l /\ in_app f = true /\ modified f = true).
Proof.
  rewrite git_files_outputs, elem_of_list_to_set, !list_elem_of_fmap.
  unfold git_part. setoid_rewrite list_elem_of_filter. naive_solver.
Qed.

Lemma git_files_class l t :
  t ∈ l -> output_of t ∈ git_files l <-> finding_of t = PostAdoption.
Proof.
  intros Ht. rewrite git_files_elem. split.
  - intros (_ & Hi & Hm). unfold finding_of. by rewrite Hi, Hm.
  - intros Hc. split; [apply list_elem_of_fmap; eauto|].
    revert Hc. destruct t as [[o s] j]. finding_cases.
Qed.

Lemma pre_existing_class l :
  filter (fun d => d_file d ∉ git_files l) (map divergence_of (diverged_part l))
  = map divergence_of (filter (fun t => finding_of t = PreExisting) l).
Proof.
  rewrite filter_map_comm. f_equal. unfold diverged_part.
  rewrite list_filter_filter. apply filter_ext_elem. intros t Ht.
  change (d_file (divergence_of t)) with (output_of t).
  rewrite (git_files_class l t Ht).
  destruct t as [[o s] j]. finding_cases.
Qed.

Lemma also_diverged_class l :
  filter (fun d => d_file d ∈ git_files l) (map divergence_of (diverged_part l))
  = map divergence_of
      (filter (fun t => finding_of t = PostAdoption
                        /\ is_jinja_of t = false /\ differs t = true) l).
Proof.
  rewrite filter_map_comm. f_equal. unfold diverged_part.
  rewrite list_filter_filter. apply filter_ext_elem. intros t Ht.
  change (d_file (divergence_of t)) with (output_of t).
  rewrite (git_files_class l t Ht).
  destruct t as [[o s] j]. finding_cases.
Qed.

Lemma jinja_non_git_class l :
  filter (fun j => j_file j ∉ git_files l) (map jinja_of (jinja_part l))
  = map jinja_of (filter (fun t => finding_of t = JinjaOnly) l).
Proof.
  rewrite filter_map_comm. f_equal. unfold jinja_part.
  rewrite list_filter_filter. apply filter_ext_elem. intros t Ht.
  change (j_file (jinja_of t)) with (output_of t).
  rewrite (git_files_class l t Ht).
  destruct t as [[o s] j]. finding_cases.
Qed.

(** The five classes cover the template-owned files. *)
Lemma finding_classes_length (l : list triple) :
  length (filter (fun t => finding_of t = Matches) l)
  + length (filter (fun t => finding_of t = JinjaOnly) l)
  + length (filter (fun t => finding_of t = PostAdoption) l)
  + length (filter (fun t => finding_of t = PreExisting) l)
  + length (filter (fun t => finding_of t = Missing) l)
  = length l.
Proof.
  induction l as [|t l IH]; [done|]. rewrite !filter_cons.
  destruct (finding_of t); repeat case_decide; try done; simpl; lia.
Qed.

(** Under distinct output paths, an output path identifies its class. *)
Lemma class_files_elem l c t :
  NoDup (map output_of l) -> t ∈ l ->
  output_of t ∈ map output_of (filter (fun t => finding_of t = c) l)
  <-> finding_of t = c.
Proof.
  intros Hnd Ht. rewrite list_elem_of_fmap. split.
  - intros (t' & Heq & [Hc Ht']%list_elem_of_filter).
    by rewrite (NoDup_map_elem_inj output_of l t t' Hnd Ht Ht' Heq).
  - intros Hc. exists t. split; [done|]. by apply list_elem_of_filter.
Qed.

Lemma class_files_disjoint l c c' f :
  NoDup (map output_of l) -> c <> c' ->
  f ∈ map output_of (filter (fun t => finding_of t = c) l) ->
  f ∉ map output_of (filter (fun t => finding_of t = c') l).
Proof.
  intros Hnd Hne (t & -> & [Hc Ht]%list_elem_of_filter)%list_elem_of_fmap.
  rewrite (class_files_elem l c' t Hnd Ht). congruence.
Qed.

Lemma class_files_size l c :
  NoDup (map output_of l) ->
  size (list_to_set (C := gset string)
          (map output_of (filter (fun t => finding_of t = c) l)))
  = length (filter (fun t => finding_of t = c) l).
Proof.
  intros Hnd. rewrite size_list_to_set by by apply NoDup_map_filter.
  by rewrite length_map.
Qed.

Section Report.
Variable l : list triple.
Variables app_owned excluded_files : list string.

Let r : report := report_of l app_owned excluded_files.

Lemma report_listings :
  post_adoption_files r
    = map output_of (filter (fun t => finding_of t = PostAdoption) l)
  /\ pre_existing_files r
    = map output_of (filter (fun t => finding_of t = PreExisting) l)
  /\ jinja_only_files r
    = map output_of (filter (fun t => finding_of t = JinjaOnly) l)
  /\ r_missing r
    = map output_of (filter (fun t => finding_of t = Missing) l).
Proof.
  unfold r, post_adoption_files, pre_existing_files, jinja_only_files.
  unfold report_of. cbn.
  rewrite pre_existing_class, jinja_non_git_class.
  rewrite <- git_part_class, <- missing_part_class. by rewrite !map_map.
Qed.

Lemma report_had_findings :
  r_had_findings r
  = nonempty_list (r_git_violations r) || nonempty_list (r_pre_existing r).
Proof. by unfold r, report_of. Qed.

Lemma report_counts :
  r_total_files r = len l
  /\ r_git_count r = len (r_git_violations r)
  /\ r_pre_existing_count r = len (r_pre_existing r)
  /\ r_missing_count r = len (r_missing r)
  /\ r_template_owned r = l.
Proof. by unfold r, report_of. Qed.

(** The output paths of one class, as a set. *)
Definition class_set (c : finding) : gset string :=
  list_to_set (map output_of (filter (fun t => finding_of t = c) l)).

Lemma class_set_elem c t :
  NoDup (map output_of l) -> t ∈ l ->
  output_of t ∈ class_set c <-> finding_of t = c.
Proof.
  intros Hnd Ht. unfold class_set. rewrite elem_of_list_to_set.
  by apply class_files_elem.
Qed.

Lemma class_set_size c :
  NoDup (map output_of l) ->
  size (class_set c) = length (filter (fun t => finding_of t = c) l).
Proof. apply class_files_size. Qed.

Lemma class_set_disjoint c c' :
  NoDup (map output_of l) -> c <> c' -> class_set c ## class_set c'.
Proof.
  intros Hnd Hne f. unfold class_set. rewrite !elem_of_list_to_set.
  intros Hc. by apply (class_files_disjoint l c c').
Qed.

Lemma report_set_fields :
  r_jinja_only_count r
  = len (filter (fun j => (j_file j ∉ class_set PostAdoption
                                       ∪ class_set PreExisting)
                          /\ (j_file j ∉ class_set Missing))
           (map jinja_of (jinja_part l)))
  /\ r_match_count r
     = (len l
        - Z.of_nat (size (class_set PostAdoption ∪ class_set PreExisting))
        - Z.of_nat (size (class_set Missing))
        - r_jinja_only_count r)%Z.
Proof.
  unfold r. unfold report_of. cbn.
  rewrite pre_existing_class, git_files_outputs, git_part_class,
    missing_part_class, !map_map.
  done.
Qed.

Lemma report_jinja_only_count :
  NoDup (map output_of l) ->
  r_jinja_only_count r
  = len (filter (fun t => finding_of t = JinjaOnly) l).
Proof.
  intros Hnd. rewrite (proj1 report_set_fields).
  rewrite filter_map_comm. unfold len. rewrite length_map. do 2 f_equal.
  unfold jinja_part. rewrite list_filter_filter. apply filter_ext_elem.
  intros t Ht. change (j_file (jinja_of t)) with (output_of t).
  rewrite not_elem_of_union, !class_set_elem by done.
  destruct t as [[o s] j]. finding_cases.
Qed.

Lemma report_unlisted :
  NoDup (map output_of l) ->
  filter (unlisted r) l = filter (fun t => finding_of t = Matches) l.
Proof.
  intros Hnd. apply filter_ext_elem. intros t Ht. unfold unlisted.
  destruct report_listings as (-> & -> & -> & ->).
  rewrite !class_files_elem by done.
  destruct (finding_of t); intuition congruence.
Qed.

(** With distinct output paths the five numbers of the summary count the
    five classes. *)
Lemma report_summary :
  NoDup (map output_of l) ->
  r_jinja_only_count r = len (r_jinja_non_git r)
  /\ r_match_count r = len (filter (unlisted r) l)
  /\ (r_match_count r + r_jinja_only_count r + r_git_count r
      + r_pre_existing_count r + r_missing_count r)%Z = r_total_files r.
Proof.
  intros Hnd.
  destruct report_counts as (Ht & Hg & Hp & Hm & _).
  destruct report_listings as (HG & HP & HJ & HM).
  pose proof (report_jinja_only_count Hnd) as Hj.
  pose proof (proj2 report_set_fields) as Hmatch.
  rewrite size_union in Hmatch by by apply class_set_disjoint.
  rewrite !class_set_size in Hmatch by done.
  pose proof (finding_classes_length l) as Hsum.
  assert (HlG : len (r_git_violations r)
                = len (filter (fun t => finding_of t = PostAdoption) l)).
  { unfold len. rewrite <- (length_map v_file). fold (post_adoption_files r).
    by rewrite HG, length_map. }
  assert (HlP : len (r_pre_existing r)
                = len (filter (fun t => finding_of t = PreExisting) l)).
  { unfold len. rewrite <- (length_map d_file). fold (pre_existing_files r).
    by rewrite HP, length_map. }
  assert (HlJ : len (r_jinja_non_git r)
                = len (filter (fun t => finding_of t = JinjaOnly) l)).
  { unfold len. rewrite <- (length_map j_file). fold (jinja_only_files r).
    by rewrite HJ, length_map. }
  assert (HlM : len (r_missing r)
                = len (filter (fun t => finding_of t = Missing) l)).
  { by rewrite HM; unfold len; rewrite length_map. }
  rewrite report_unlisted by done.
  rewrite Ht, Hg, Hp, Hm, HlG, HlP, HlM, HlJ, Hmatch, Hj.
  unfold len in *. repeat split; lia.
Qed.

(** The four listings share no output path when output paths are
    distinct. *)
Lemma report_listings_disjoint :
  NoDup (map output_of l) ->
  (forall f, f ∈ post_adoption_files r ->
     (f ∉ pre_existing_files r) /\ (f ∉ jinja_only_files r)
     /\ (f ∉ r_missing r))
  /\ (forall f, f ∈ pre_existing_files r ->
        (f ∉ jinja_only_files r) /\ (f ∉ r_missing r))
  /\ (forall f, f ∈ jinja_only_files r -> f ∉ r_missing r).
Proof.
  intros Hnd. destruct report_listings as (-> & -> & -> & ->).
  split; [|split]; intros f Hf; repeat split;
    by refine (class_files_disjoint l _ _ f Hnd _ Hf).
Qed.

Lemma git_part_occurrences f :
  in_app f = true -> modified f = true ->
  occurrences f (map output_of (git_part l)) = occurrences f (map output_of l).
Proof.
  intros Hi Hm. unfold occurrences. rewrite !filter_map_comm, !length_map.
  unfold git_part. rewrite list_filter_filter. f_equal.
  apply list_filter_iff. intros t. split; [by intros [? _]|].
  intros Ht. by rewrite Ht.
Qed.

(** A file both modified after adoption and diverging from source goes
    under post-adoption only. *)
Lemma report_dedup f :
  f ∈ post_adoption_files r -> f ∈ diverged_files r ->
  (f ∉ pre_existing_files r)
  /\ f ∈ also_diverged_files r
  /\ r_pre_existing_count r
     = (len (r_diverged r) - len (r_also_diverged r))%Z
  /\ occurrences f (post_adoption_files r ++ pre_existing_files r)
     = occurrences f (map output_of l).
Proof.
  unfold post_adoption_files, diverged_files, pre_existing_files,
    also_diverged_files, r.
  unfold report_of. cbn. intros Hg Hd.
  assert (HG : f ∈ git_files l) by by apply elem_of_list_to_set.
  assert (Hpre : f ∉ map d_file
            (filter (fun d => d_file d ∉ git_files l)
               (map divergence_of (diverged_part l)))).
  { intros (d & -> & [Hn _]%list_elem_of_filter)%list_elem_of_fmap. done. }
  split; [done|]. split; [|split].
  - apply list_elem_of_fmap in Hd as (d & -> & Hd).
    apply list_elem_of_fmap. exists d. split; [done|].
    by apply list_elem_of_filter.
  - pose proof (filter_complement_length (fun d => d_file d ∈ git_files l)
                  (map divergence_of (diverged_part l))) as Hlen.
    unfold len. lia.
  - rewrite occurrences_app, (occurrences_not_elem _ _ Hpre), map_map.
    apply git_files_elem in HG as (_ & Hi & Hm).
    rewrite Nat.add_0_r. by apply git_part_occurrences.
Qed.

End Report.

End Drift.

(** ** Runs of the drift detector *)
Section Runs.
Import PyStr Violations.

(** A run ends with a report only when it passed the precondition checks
    and no call raised; the report is the one [find_violations] made. *)
Lemma main_finished w args r :
  main w args = Finished r ->
  exists app_dir template_dir copier_commit l app_owned excluded_files,
    r = report_of w app_dir template_dir copier_commit l
          app_owned excluded_files.
Proof.
  unfold main. intros H.
  repeat case_match; try discriminate; simplify_eq;
    match goal with
    | H : find_violations _ _ _ _ _ _ _ = Ok _ |- _ =>
        apply find_violations_eq in H as [-> _]
    end; eauto 10.
Qed.

(** In such a run every read of the source comparison returned. *)
Lemma main_finished_readable w args r :
  main w args = Finished r ->
  exists template_dir,
    Forall (readable w (resolve w (arg_app_dir args)) template_dir)
      (r_template_owned r).
Proof.
  unfold main. intros H.
  repeat case_match; try discriminate; simplify_eq;
    match goal with
    | H : find_violations _ _ _ _ _ _ _ = Ok _ |- _ =>
        apply find_violations_eq in H as [-> Hr]
    end; eexists; exact Hr.
Qed.

(** C1, amended: a run that passes its precondition checks and ends with
    its summary exits with a non-zero code exactly when it lists a
    post-adoption violation or a pre-existing divergence; neither missing
    files nor unverifiable Jinja files change the exit code.  A run that
    an exception ends, or that fails a precondition check, exits with
    code 1. *)
Theorem exit_code_findings w args :
  (forall r, main w args = Finished r ->
     (exit_code (main w args) <> 0%Z
      <-> (r_git_violations r <> [] \/ r_pre_existing r <> [])))
  /\ (forall e, main w args = Uncaught e -> exit_code (main w args) = 1%Z)
  /\ (forall m, main w args = Failed m -> exit_code (main w args) = 1%Z).
Proof.
  split; [|split; intros ? Hrun; by rewrite Hrun].
  intros r Hrun. rewrite Hrun. simpl.
  destruct (main_finished _ _ _ Hrun) as (a & t & c & l & ao & ex & ->).
  rewrite report_had_findings.
  destruct (r_git_violations _), (r_pre_existing _); simpl; split;
    (done || (intros [?|?]; done) || auto).
Qed.

(** C3, amended: when the template-owned files have pairwise distinct
    output paths, the five numbers of the summary add up to the number of
    template-owned files; the four listings share no output path, the
    Jinja number is the length of the Jinja listing, and the number of
    matching files is the number of template-owned files that no listing
    names. *)
Theorem summary_counts_partition w args r :
  main w args = Finished r ->
  NoDup (map output_of (r_template_owned r)) ->
  (r_match_count r + r_jinja_only_count r + r_git_count r
   + r_pre_existing_count r + r_missing_count r)%Z = r_total_files r
  /\ r_total_files r = len (r_template_owned r)
  /\ r_match_count r = len (filter (unlisted r) (r_template_owned r))
  /\ r_jinja_only_count r = len (r_jinja_non_git r)
  /\ r_git_count r = len (r_git_violations r)
  /\ r_pre_existing_count r = len (r_pre_existing r)
  /\ r_missing_count r = len (r_missing r)
  /\ (forall f, f ∈ post_adoption_files r ->
        (f ∉ pre_existing_files r) /\ (f ∉ jinja_only_files r)
        /\ (f ∉ r_missing r))
  /\ (forall f, f ∈ pre_existing_files r ->
        (f ∉ jinja_only_files r) /\ (f ∉ r_missing r))
  /\ (forall f, f ∈ jinja_only_files r -> f ∉ r_missing r).
Proof.
  intros Hrun.
  destruct (main_finished _ _ _ Hrun) as (a & t & c & l & ao & ex & ->).
  destruct (report_counts w a t c l ao ex) as (Ht & Hg & Hp & Hm & Hl).
  rewrite Hl. intros Hnd.
  destruct (report_summary w a t c l ao ex Hnd) as (Hj & Hmatch & Hsum).
  destruct (report_listings_disjoint w a t c l ao ex Hnd) as (D1 & D2 & D3).
  repeat split; try done; try (by apply D1); by apply D2.
Qed.

(** C9, amended: in a run that ends with its report, a file whose output
    path is both in the post-adoption listing and in the result of the
    source comparison is left out of the pre-existing listing and of its
    count, is among the files of the "reported above" note, and is listed
    once for each template-owned file with that output path, all under
    post-adoption: exactly once when the template-owned files have
    pairwise distinct output paths. *)
Theorem both_reported_post_adoption w args r f :
  main w args = Finished r ->
  f ∈ post_adoption_files r ->
  f ∈ diverged_files r ->
  (f ∉ pre_existing_files r)
  /\ f ∈ also_diverged_files r
  /\ r_pre_existing_count r
     = (len (r_diverged r) - len (r_also_diverged r))%Z
  /\ occurrences f (post_adoption_files r ++ pre_existing_files r)
     = occurrences f (map output_of (r_template_owned r))
  /\ (NoDup (map output_of (r_template_owned r)) ->
      occurrences f (post_adoption_files r ++ pre_existing_files r) = 1).
Proof.
  intros Hrun.
  destruct (main_finished _ _ _ Hrun) as (a & t & c & l & ao & ex & ->).
  intros Hg Hd.
  destruct (report_dedup w a t c l ao ex f Hg Hd) as (H1 & H2 & H3 & H4).
  destruct (report_counts w a t c l ao ex) as (_ & _ & _ & _ & Hl).
  rewrite Hl in *. repeat split; try done.
  intros Hnd. rewrite H4. apply occurrences_NoDup; [done|].
  unfold post_adoption_files in Hg.
  unfold report_of in Hg. cbn in Hg. rewrite map_map in Hg.
  apply list_elem_of_fmap in Hg as (x & -> & Hx).
  apply list_elem_of_fmap. exists x. split; [done|].
  by apply list_elem_of_filter in Hx as [_ Hx].
Qed.

End Runs.

(** ** Example runs *)

(** An app at [/app] generated from the template repository at [/tmpl]
    with template directory [/tmpl/template], whose last commit of the
    answers file is [abc123].  [files] is the template tree, [present]
    the template outputs found in the app, [modified_files] those that
    git reports as changed since that commit, [changed] those whose bytes
    differ from the template source. *)
Definition example_env (files : list Violations.dir_entry)
    (present modified_files changed : list string) : Violations.env :=
  Violations.Env
    (fun a b => a +:+ "/" +:+ b)
    (fun p => p)
    (fun p => bool_decide
                (p ∈ "/app/.copier-answers.yml" :: "/tmpl/copier.yml"
                     :: map (fun f => "/app/" +:+ f) present))
    (fun p => Violations.Ok p)
    (fun p => if bool_decide (p ∈ map (fun f => "/app/" +:+ f) changed)
              then Violations.Ok "edited" else Violations.Ok "original")
    (fun _ => files)
    (fun _ => Violations.Ok (Some (Violations.Config (Some "template") None None)))
    (fun _ => Violations.Ok (Some ∅))
    (fun a _ =>
       match a with
       | ["git"; "log"; "--format=%H"; "-1"; "--"; ".copier-answers.yml"] =>
           "abc123" +:+ PyStr.nl
       | ["git"; "diff"; "--name-only"; _; "HEAD"; "--"; f] =>
           if bool_decide (f ∈ modified_files) then f +:+ PyStr.nl else ""
       | _ => ""
       end)
    (fun _ _ _ _ => []).

Definition example_args : Violations.args :=
  Violations.Args "/app" (Some "/tmpl") false false.

(** The template has one file, which the app lacks. *)
Definition missing_only_env : Violations.env :=
  example_env [Violations.DirEntry "a.txt" true] [] [] [].

(** The template has [a.txt] and [a.txt.jinja], both rendered to
    [a.txt], which the app changed after adoption. *)
Definition colliding_env : Violations.env :=
  example_env
    [Violations.DirEntry "a.txt" true; Violations.DirEntry "a.txt.jinja" true]
    ["a.txt"] ["a.txt"] ["a.txt"].

(** Five template files, one of each class. *)
Definition five_files_env : Violations.env :=
  example_env
    [Violations.DirEntry "a.txt" true; Violations.DirEntry "b.jinja" true;
     Violations.DirEntry "c" true; Violations.DirEntry "d" true;
     Violations.DirEntry "e" true]
    ["a.txt"; "b"; "c"; "d"] ["a.txt"] ["a.txt"; "d"].

(** The template has one file; at its place the app has a directory,
    which exists and which [read_bytes] refuses. *)
Definition unreadable_env : Violations.env :=
  let w := example_env [Violations.DirEntry "a.txt" true] ["a.txt"] [] [] in
  Violations.Env (Violations.joinpath w) (Violations.resolve w)
    (Violations.path_exists w) (Violations.read_text w)
    (fun p => if String.eqb p "/app/a.txt"
              then Violations.Raise "IsADirectoryError"
              else Violations.read_bytes w p)
    (Violations.rglob w) (Violations.safe_load_config w)
    (Violations.safe_load_answers w) (Violations.git_stdout w)
    (Violations.unified_diff w).

(** The answers file of the app is empty: [yaml.safe_load] gives [None]. *)
Definition empty_answers_env : Violations.env :=
  let w := example_env [Violations.DirEntry "a.txt" true] ["a.txt"] [] [] in
  Violations.Env (Violations.joinpath w) (Violations.resolve w)
    (Violations.path_exists w) (Violations.read_text w)
    (Violations.read_bytes w) (Violations.rglob w)
    (Violations.safe_load_config w)
    (fun _ => Violations.Ok None) (Violations.git_stdout w)
    (Violations.unified_diff w).

(** C1 as stated fails: a run whose only finding is a missing file exits
    with code 0. *)
Lemma exit_code_ignores_missing :
  exists r,
    Violations.main missing_only_env example_args = Violations.Finished r
    /\ Violations.r_missing r = ["a.txt"]
    /\ ~ (Violations.exit_code (Violations.main missing_only_env example_args)
            <> 0%Z
          <-> (Violations.r_git_violations r <> []
               \/ Violations.r_pre_existing r <> []
               \/ Violations.r_missing r <> [])).
Proof.
  eexists. split; [vm_compute; reflexivity|]. split; [reflexivity|].
  intros [_ H]. apply H; [|by vm_compute]. right. right. discriminate.
Qed.

(** C3 as stated fails: with two template files rendered to one output
    path the five numbers add up to 3, for 2 template-owned files. *)
Lemma summary_counts_collide :
  exists r,
    Violations.main colliding_env example_args = Violations.Finished r
    /\ Violations.r_total_files r = 2%Z
    /\ (Violations.r_match_count r + Violations.r_jinja_only_count r
        + Violations.r_git_count r + Violations.r_pre_existing_count r
        + Violations.r_missing_count r)%Z = 3%Z.
Proof.
  eexists. split; [vm_compute; reflexivity|]. split; reflexivity.
Qed.

(** C9 as stated fails: with two template files rendered to one output
    path that the app changed after adoption, the path is in both sets
    and is listed twice under post-adoption. *)
Lemma both_reported_twice_on_collision :
  exists r,
    Violations.main colliding_env example_args = Violations.Finished r
    /\ "a.txt" ∈ post_adoption_files r
    /\ "a.txt" ∈ diverged_files r
    /\ occurrences "a.txt" (post_adoption_files r ++ pre_existing_files r) = 2
    /\ occurrences "a.txt" (post_adoption_files r ++ pre_existing_files r) <> 1.
Proof.
  eexists. split; [vm_compute; reflexivity|].
  split; [vm_compute; left|]. split; [vm_compute; left|].
  split; [reflexivity|]. vm_compute. discriminate.
Qed.

Lemma exit_code_findings_witness :
  Violations.exit_code (Violations.main five_files_env example_args) <> 0%Z
  /\ Violations.exit_code (Violations.main unreadable_env example_args) = 1%Z
  /\ Violations.exit_code (Violations.main empty_answers_env example_args)
     = 1%Z.
Proof.
  split; [|split].
  - refine (proj2 (proj1 (exit_code_findings five_files_env example_args)
                     _ eq_refl) _).
    left. vm_compute. discriminate.
  - exact (proj1 (proj2 (exit_code_findings unreadable_env example_args))
             "IsADirectoryError" eq_refl).
  - exact (proj1 (proj2 (exit_code_findings empty_answers_env example_args))
             "AttributeError" eq_refl).
Defined.

Lemma summary_counts_partition_witness :
  exists r,
    Violations.main five_files_env example_args = Violations.Finished r
    /\ (Violations.r_match_count r + Violations.r_jinja_only_count r
        + Violations.r_git_count r + Violations.r_pre_existing_count r
        + Violations.r_missing_count r)%Z = 5%Z.
Proof.
  eexists. split; [vm_compute; reflexivity|].
  refine (eq_trans
            (proj1 (summary_counts_partition five_files_env example_args _
                      eq_refl _)) eq_refl).
  vm_compute. repeat constructor; set_solver.
Defined.

Lemma both_reported_post_adoption_witness :
  exists r,
    Violations.main five_files_env example_args = Violations.Finished r
    /\ ("a.txt" ∉ pre_existing_files r)
    /\ occurrences "a.txt" (post_adoption_files r ++ pre_existing_files r) = 1.
Proof.
  eexists. split; [vm_compute; reflexivity|].
  destruct (both_reported_post_adoption five_files_env example_args _ "a.txt"
              eq_refl) as (H1 & _ & _ & _ & H5).
  - vm_compute. left.
  - vm_compute. left.
  - split; [exact H1|]. apply H5. vm_compute. repeat constructor; set_solver.
Defined.

(** * Further properties *)

(** ** Exclusion rules, both directions *)
Section ExcludesMore.
Import PyStr Violations.

Lemma exclude_fold_elem answers entries (acc : gset string) p :
  p ∈ fold_left (exclude_step answers) entries acc
  <-> p ∈ acc
      \/ exists entry flag_name body,
           entry ∈ entries
           /\ pattern_match (strip entry) = Some (flag_name, body)
           /\ truthy (default (YBool false) (answers !! flag_name)) = false
           /\ strip body = p.
Proof.
  revert acc. induction entries as [|e es IH]; intros acc; simpl.
  - split; [by left|]. intros [?|(? & ? & ? & H & _)]; [done|].
    by apply elem_of_nil in H.
  - rewrite IH. unfold exclude_step.
    destruct (pattern_match (strip e)) as [[flag body]|] eqn:Hm.
    + destruct (truthy _) eqn:Ht; simpl.
      * split.
        -- intros [?|(en & f & b & Hin & ?)]; [by left|].
           right. exists en, f, b. split; [by right|done].
        -- intros [?|(en & f & b & Hin & Hm' & Ht' & Hp)]; [by left|].
           apply elem_of_cons in Hin as [->|Hin].
           ++ rewrite Hm in Hm'. injection Hm' as <- <-. congruence.
           ++ right. by exists en, f, b.
      * rewrite elem_of_union, elem_of_singleton. split.
        -- intros [[? | ->] | (en & f & b & Hin & ?)]; [by left| |].
           ++ right. exists e, flag, body. split; [by left|done].
           ++ right. exists en, f, b. split; [by right|done].
        -- intros [?|(en & f & b & Hin & Hm' & Ht' & Hp)]; [by left; left|].
           apply elem_of_cons in Hin as [->|Hin].
           ++ rewrite Hm in Hm'. injection Hm' as <- <-. by left; right.
           ++ right. by exists en, f, b.
    + split.
      * intros [?|(en & f & b & Hin & ?)]; [by left|].
        right. exists en, f, b. split; [by right|done].
      * intros [?|(en & f & b & Hin & Hm' & Ht' & Hp)]; [by left|].
        apply elem_of_cons in Hin as [->|Hin]; [congruence|].
        right. by exists en, f, b.
Qed.

(** X1: a path is in the set [evaluate_excludes] returns exactly when
    some [_exclude] entry matches the pattern with that path, stripped,
    as its body and a flag whose recorded answer is absent or falsy.
    Entries that do not match, and entries whose flag is truthy, add
    nothing; a configuration without [_exclude] excludes nothing. *)
Theorem evaluate_excludes_elem config answers p :
  p ∈ evaluate_excludes config answers
  <-> exists entry flag_name body,
        entry ∈ default [] (cfg_exclude config)
        /\ pattern_match (strip entry) = Some (flag_name, body)
        /\ truthy (default (YBool false) (answers !! flag_name)) = false
        /\ strip body = p.
Proof.
  rewrite evaluate_excludes_fold, exclude_fold_elem. set_solver.
Qed.

End ExcludesMore.

(** ** A rule in the usual shape is recognised *)
Section Pattern.
Import PyStr Violations.

(** Every character of [s] passes the test [P]. *)
Fixpoint all_chars (P : ascii -> bool) (s : string) : bool :=
  match s with
  | EmptyString => true
  | String c r => P c && all_chars P r
  end.

(** A character a path may hold inside a rule: no newline, no brace. *)
Definition plain_char (c : ascii) : bool :=
  negb (Ascii.eqb c "010"%char) && negb (Ascii.eqb c "{"%char).

Lemma isword_not_space c : isword c = true -> isspace c = false.
Proof. destruct c as [[] [] [] [] [] [] [] []]; by vm_compute. Qed.

Lemma prefix_head_ne c p d s :
  c <> d -> String.prefix (String c p) (String d s) = false.
Proof. intros Hne. cbn [String.prefix]. by destruct (Ascii.ascii_dec c d). Qed.

Lemma lit_cons {A} a p (k : string -> option A) s :
  lit (String a p) k (String a s) = lit p k s.
Proof.
  unfold lit. cbn [String.prefix String.length drop].
  by destruct (Ascii.ascii_dec a a).
Qed.

Lemma lit_nil {A} (k : string -> option A) s : lit "" k s = k s.
Proof. unfold lit. by destruct s. Qed.

Lemma space_star_nonspace {A} (k : string -> option A) c s :
  isspace c = false -> space_star k (String c s) = k (String c s).
Proof. intros H. cbn [space_star]. by rewrite H. Qed.

Lemma space_star_space {A} (k : string -> option A) c s x :
  isspace c = true -> space_star k s = Some x ->
  space_star k (String c s) = Some x.
Proof. intros H Hk. cbn [space_star]. by rewrite H, Hk. Qed.

Lemma space_plus_space {A} (k : string -> option A) c s :
  isspace c = true -> space_plus k (String c s) = space_star k s.
Proof. intros H. unfold space_plus. by rewrite H. Qed.

Lemma word_star_all {A} (k : string -> string -> option A) f acc rest x :
  all_chars isword f = true ->
  match rest with String c _ => isword c = false | EmptyString => True end ->
  k (acc +:+ f) rest = Some x ->
  word_star acc k (f +:+ rest) = Some x.
Proof.
  revert acc. induction f as [|d f IH]; intros acc Hf Hrest Hk.
  - rewrite append_nil. replace (acc +:+ "") with acc in Hk
      by (clear; induction acc as [|? ? IHa]; [done|];
          by rewrite append_cons, <- IHa).
    destruct rest as [|c r]; simpl; [done|]. by rewrite Hrest.
  - simpl in Hf. apply andb_true_iff in Hf as [Hd Hf].
    rewrite append_cons. simpl. rewrite Hd.
    rewrite (IH (acc +:+ String d "")); [done|done|done|].
    by rewrite append_assoc.
Qed.

Lemma any_lazy_plain {A} (k : string -> string -> option A) path acc tail x :
  path <> "" ->
  all_chars plain_char path = true ->
  lit "{%" (k (acc +:+ path)) tail = Some x ->
  any_lazy_plus acc (fun body => lit "{%" (k body)) (path +:+ tail) = Some x.
Proof.
  revert acc. induction path as [|c p IH]; intros acc Hne Hp Hk; [done|].
  simpl in Hp. apply andb_true_iff in Hp as [Hc Hp].
  unfold plain_char in Hc. apply andb_true_iff in Hc as [Hnl Hbr].
  apply negb_true_iff in Hnl, Hbr.
  rewrite append_cons. simpl. rewrite Hnl.
  destruct p as [|d p].
  - rewrite append_nil. by rewrite Hk.
  - assert (Hfail : lit "{%" (k (acc +:+ String c "")) (String d p +:+ tail)
                    = None).
    { simpl in Hp. apply andb_true_iff in Hp as [Hd _].
      unfold plain_char in Hd. apply andb_true_iff in Hd as [_ Hd].
      apply negb_true_iff in Hd. rewrite append_cons. unfold lit.
      rewrite prefix_head_ne; [done|]. intros <-.
      by rewrite Ascii.eqb_refl in Hd. }
    rewrite Hfail. apply IH; [done|done|]. by rewrite append_assoc.
Qed.

(** X2: the rule [{% if not FLAG %}PATH{% endif %}], for a non-empty
    FLAG of word characters and a non-empty PATH without newline or
    brace, matches the pattern with FLAG and PATH as its two groups. *)
Theorem pattern_match_rule flag path :
  flag <> "" -> all_chars isword flag = true ->
  path <> "" -> all_chars plain_char path = true ->
  pattern_match ("{% if not " +:+ flag +:+ " %}" +:+ path +:+ "{% endif %}")
  = Some (flag, path).
Proof.
  intros Hf Hw Hp Hpl. destruct flag as [|c f]; [done|].
  simpl in Hw. apply andb_true_iff in Hw as [Hc Hw].
  unfold pattern_match.
  remember (String c f +:+ " %}" +:+ path +:+ "{% endif %}") as T eqn:HT.
  rewrite !append_cons, append_nil, !lit_cons, lit_nil.
  apply space_star_space; [done|].
  rewrite space_star_nonspace, !lit_cons, lit_nil by done.
  rewrite space_plus_space, space_star_nonspace, !lit_cons, lit_nil by done.
  rewrite space_plus_space by done. subst T. rewrite append_cons.
  rewrite space_star_nonspace by by apply isword_not_space.
  unfold word_plus. rewrite Hc.
  apply word_star_all; [done|reflexivity|].
  remember (path +:+ "{% endif %}") as P eqn:HP.
  rewrite !append_cons, append_nil.
  apply space_star_space; [done|].
  rewrite space_star_nonspace, !lit_cons, lit_nil by done. subst P.
  apply (any_lazy_plain (fun body s =>
    space_star (lit "endif" (space_star (lit "%}"
      (fun _ => Some (String c f, body))))) s) path "" "{% endif %}");
    [done|done|].
  by vm_compute.
Qed.

Lemma pattern_match_rule_witness :
  pattern_match "{% if not use_database %}app/extensions.py{% endif %}"
  = Some ("use_database", "app/extensions.py").
Proof.
  exact (pattern_match_rule "use_database" "app/extensions.py"
           ltac:(discriminate) eq_refl ltac:(discriminate) eq_refl).
Defined.

End Pattern.

(** ** Counting diff lines *)
Section DiffLines.
Import PyStr Violations.

(** The two tests of [count_diff_lines]. *)
Definition is_added (line : string) : bool :=
  startswith line "+" && negb (startswith line "+++").

Definition is_removed (line : string) : bool :=
  startswith line "-" && negb (startswith line "---").

Lemma added_not_removed line : is_added line = true -> is_removed line = false.
Proof.
  unfold is_added, is_removed, startswith. intros [H _]%andb_true_iff.
  destruct line as [|c r]; [done|].
  rewrite (prefix_head_ne "-" "" c r); [done|]. intros <-.
  by rewrite (prefix_head_ne "+" "" "-" r) in H.
Qed.

Lemma count_diff_loop lines added removed :
  fold_left
    (fun '(added, removed) line =>
       if startswith line "+" && negb (startswith line "+++") then
         (S added, removed)
       else if startswith line "-" && negb (startswith line "---") then
         (added, S removed)
       else (added, removed))
    lines (added, removed)
  = (added + length (filter (fun l => is_added l = true) lines),
     removed + length (filter (fun l => is_removed l = true) lines)).
Proof.
  revert added removed. induction lines as [|l ls IH]; intros a r; simpl.
  - f_equal; lia.
  - rewrite !filter_cons. fold (is_added l) (is_removed l).
    destruct (is_added l) eqn:Ea.
    + rewrite IH, (added_not_removed l Ea).
      rewrite decide_True by done. rewrite decide_False by done.
      simpl. f_equal; lia.
    + destruct (is_removed l) eqn:Er; rewrite IH.
      * rewrite decide_False by done. rewrite decide_True by done.
        simpl. f_equal; lia.
      * rewrite decide_False by done. by rewrite decide_False by done.
Qed.

(** X3: [count_diff_lines] returns the number of lines that start with
    [+] but not with [+++] and the number that start with [-] but not
    with [---]; no line is counted twice, so the two numbers add up to
    at most the number of lines, and an empty diff gives [(0, 0)]. *)
Theorem count_diff_lines_spec (diff_text : string) :
  let lines := splitlines diff_text in
  (count_diff_lines diff_text).1
    = length (filter (fun l => is_added l = true) lines)
  /\ (count_diff_lines diff_text).2
    = length (filter (fun l => is_removed l = true) lines)
  /\ (count_diff_lines diff_text).1 + (count_diff_lines diff_text).2
     <= length lines
  /\ count_diff_lines "" = (0, 0).
Proof.
  intros lines. unfold count_diff_lines. fold lines.
  rewrite count_diff_loop. simpl. repeat split.
  clear. induction lines as [|l ls IH]; [done|]. rewrite !filter_cons.
  destruct (is_added l) eqn:Ea.
  - rewrite (added_not_removed l Ea). rewrite decide_True by done.
    rewrite decide_False by done. simpl. lia.
  - rewrite decide_False by done. case_decide; simpl; lia.
Qed.

End DiffLines.

(** ** The inventory as a function of the tree *)
Section InventoryMore.
Import PyStr Violations.

(** X4: a source path is enumerated exactly when the tree holds a regular
    file of that relative path whose name contains neither ["{{"] nor
    ["{%"]; directories and dynamically named files are skipped, and
    nothing is enumerated for an empty tree. *)
Theorem enumerate_sources (listing : list dir_entry) (rel : string) :
  (rel ∈ map source_of (enumerate_template_files listing)
   <-> exists p, p ∈ listing /\ entry_rel p = rel
                 /\ entry_is_file p = true
                 /\ contains "{{" rel = false /\ contains "{%" rel = false)
  /\ enumerate_template_files [] = [].
Proof.
  split; [|done]. rewrite list_elem_of_fmap. split.
  - intros (t & -> & Ht).
    apply enumerate_template_files_elem in Ht as (p & Hp & [Hf Hc] & ->).
    apply orb_false_iff in Hc as [Hc1 Hc2]. by exists p.
  - intros (p & Hp & <- & Hf & Hc1 & Hc2). exists (triple_of (entry_rel p)).
    split; [done|]. apply enumerate_template_files_elem. exists p.
    split; [done|]. split; [|done]. split; [done|]. by rewrite Hc1, Hc2.
Qed.

(** X5: the enumerated files do not depend on the order in which the
    tree is walked: two walks of the same entries give the same files up
    to order. *)
Theorem enumerate_order_independent (l l' : list dir_entry) :
  l ≡ₚ l' ->
  enumerate_template_files l ≡ₚ enumerate_template_files l'.
Proof.
  intros H. rewrite !enumerate_template_files_eq.
  apply fmap_Permutation. apply filter_Permutation.
  by rewrite !sorted_perm.
Qed.

End InventoryMore.

Lemma enumerate_order_independent_witness :
  Violations.enumerate_template_files
    [Violations.DirEntry "b.txt" true; Violations.DirEntry "a.jinja" true]
  ≡ₚ Violations.enumerate_template_files
       [Violations.DirEntry "a.jinja" true; Violations.DirEntry "b.txt" true].
Proof.
  apply enumerate_order_independent. apply Permutation_swap.
Defined.

(** ** The classes, read logically *)
Section ClassifyMore.
Import PyStr Violations.

#[local] Existing Instance is_app_owned_dec.
#[local] Existing Instance is_excluded_file_dec.
#[local] Existing Instance is_template_owned_dec.

(** A path is an excluded path or lies under one. *)
Definition under_excluded (excluded : gset string) (p : string) : Prop :=
  p ∈ excluded \/ exists e, e ∈ excluded /\ startswith p (e +:+ "/") = true.

Lemma is_excluded_spec excluded p :
  is_excluded excluded p = true <-> under_excluded excluded p.
Proof.
  unfold is_excluded, under_excluded.
  rewrite orb_true_iff, bool_decide_eq_true, existsb_exists.
  setoid_rewrite <- list_elem_of_In. setoid_rewrite elem_of_elements. done.
Qed.

(** X6: a triple is template-owned exactly when it is enumerated, its
    output path is not app-owned, is not an excluded path and does not
    lie under an excluded path; an output path is in the excluded list
    exactly when it belongs to an enumerated file that is not app-owned
    and is an excluded path or lies under one; the template-owned list
    keeps the order of the enumeration. *)
Theorem classify_files_classes (listing : list dir_entry)
    (skip_if_exists excluded : gset string) :
  let '(template_owned, app_owned, excluded_files) :=
    classify_files listing skip_if_exists excluded in
  (forall t, t ∈ template_owned
     <-> t ∈ enumerate_template_files listing
         /\ (output_of t ∉ skip_if_exists)
         /\ ~ under_excluded excluded (output_of t))
  /\ (forall p, p ∈ excluded_files
        <-> p ∈ map output_of (enumerate_template_files listing)
            /\ (p ∉ skip_if_exists) /\ under_excluded excluded p)
  /\ (forall p, p ∈ app_owned
        <-> p ∈ map output_of (enumerate_template_files listing)
            /\ p ∈ skip_if_exists)
  /\ template_owned `sublist_of` enumerate_template_files listing.
Proof.
  rewrite classify_files_eq. split; [|split; [|split]].
  - intros t. rewrite list_elem_of_filter. unfold is_template_owned.
    rewrite <- is_excluded_spec, not_true_iff_false. tauto.
  - intros p. rewrite !list_elem_of_fmap.
    setoid_rewrite list_elem_of_filter. unfold is_excluded_file.
    setoid_rewrite is_excluded_spec. split.
    + intros (t & -> & [Hs He] & Ht). eauto.
    + intros ((t & -> & Ht) & Hs & He). eauto.
  - intros p. rewrite !list_elem_of_fmap.
    setoid_rewrite list_elem_of_filter. unfold is_app_owned. split.
    + intros (t & -> & Hs & Ht). eauto.
    + intros ((t & -> & Ht) & Hs). eauto.
  - apply sublist_filter.
Qed.

(** X7: when [copier.yml] has neither [_skip_if_exists] nor [_exclude],
    every enumerated file is template-owned, whatever the answers. *)
Theorem classify_files_no_rules (listing : list dir_entry)
    (config : config) (answers : gmap string yaml) :
  cfg_skip_if_exists config = None ->
  cfg_exclude config = None ->
  classify_files listing (get_skip_if_exists config)
    (evaluate_excludes config answers)
  = (enumerate_template_files listing, [], []).
Proof.
  intros Hs He.
  assert (get_skip_if_exists config = ∅) as ->
    by (unfold get_skip_if_exists; by rewrite Hs).
  assert (evaluate_excludes config answers = ∅) as ->
    by (unfold evaluate_excludes; by rewrite He).
  rewrite classify_files_eq.
  assert (Hall : forall l : list triple,
            filter (is_template_owned ∅ ∅) l = l
            /\ filter (is_app_owned ∅) l = []
            /\ filter (is_excluded_file ∅ ∅) l = []).
  { induction l as [|t l (IH1 & IH2 & IH3)]; [done|].
    assert (Hex : is_excluded ∅ (output_of t) = false).
    { apply not_true_iff_false.
      intros [H|(e & H & _)]%is_excluded_spec;
        by apply not_elem_of_empty in H. }
    rewrite !filter_cons, IH1, IH2, IH3.
    rewrite (decide_True (P := is_template_owned ∅ ∅ t))
      by (split; [intros H; by apply not_elem_of_empty in H|done]).
    rewrite (decide_False (P := is_app_owned ∅ t))
      by (unfold is_app_owned; intros H; by apply not_elem_of_empty in H).
    rewrite (decide_False (P := is_excluded_file ∅ ∅ t)); [done|].
    intros [_ H]. congruence. }
  destruct (Hall (enumerate_template_files listing)) as (-> & -> & ->).
  done.
Qed.

End ClassifyMore.

Lemma classify_files_no_rules_witness :
  Violations.classify_files
    [Violations.DirEntry "app" false; Violations.DirEntry "app/x.py" true]
    (Violations.get_skip_if_exists (Violations.Config (Some "t") None None))
    (Violations.evaluate_excludes (Violations.Config (Some "t") None None)
       {["use_x" := Violations.YBool false]})
  = ([("app/x.py", "app/x.py", false)], [], []).
Proof.
  exact (classify_files_no_rules
           [Violations.DirEntry "app" false;
            Violations.DirEntry "app/x.py" true]
           (Violations.Config (Some "t") None None) _ eq_refl eq_refl).
Defined.

(** ** Source comparison and the report, further *)
Section RunsMore.
Import PyStr Violations.

Lemma filter_all {A} (P : A -> Prop) `{!forall x, Decision (P x)} (l : list A) :
  (forall x, x ∈ l -> P x) -> filter P l = l.
Proof.
  induction l as [|x l IH]; intros Hall; [done|]. rewrite filter_cons.
  rewrite decide_True by (apply Hall; by left).
  f_equal. apply IH. intros y Hy. apply Hall. by right.
Qed.


(** A run that passes the precondition checks reports on the classes
    that [classify_files] computes. *)
Lemma main_finished_classified w args r :
  main w args = Finished r ->
  exists app_dir template_dir copier_commit listing skip excluded,
    r = report_of w app_dir template_dir copier_commit
          (classify_files listing skip excluded).1.1
          (classify_files listing skip excluded).1.2
          (classify_files listing skip excluded).2.
Proof.
  unfold main. intros H.
  repeat case_match; try discriminate; simplify_eq;
    match goal with
    | H : find_violations _ _ _ _ _ _ _ = Ok _ |- _ =>
        apply find_violations_eq in H as [-> _]
    end;
    repeat eexists;
    match goal with
    | H : classify_files _ _ _ = _ |- _ => by rewrite H
    end.
Qed.

End RunsMore.

(** ** What a report never lists *)
Section ReportScope.
Import PyStr Violations.

#[local] Existing Instance is_app_owned_dec.
#[local] Existing Instance is_excluded_file_dec.
#[local] Existing Instance is_template_owned_dec.

(** Every path a report lists under any heading. *)
Definition listed (r : report) (f : string) : Prop :=
  f ∈ post_adoption_files r \/ f ∈ pre_existing_files r
  \/ f ∈ jinja_only_files r \/ f ∈ also_diverged_files r
  \/ f ∈ r_missing r.

Lemma listed_template_owned w app_dir template_dir copier_commit l a e f :
  listed (report_of w app_dir template_dir copier_commit l a e) f ->
  f ∈ map output_of l.
Proof.
  unfold listed.
  destruct (report_listings w app_dir template_dir copier_commit l a e)
    as (-> & -> & -> & ->).
  unfold also_diverged_files. unfold report_of. cbn.
  rewrite !list_elem_of_fmap. setoid_rewrite list_elem_of_filter.
  intros [H|[H|[H|[H|H]]]].
  - destruct H as (t & -> & _ & Ht). eauto.
  - destruct H as (t & -> & _ & Ht). eauto.
  - destruct H as (t & -> & _ & Ht). eauto.
  - destruct H as (d & -> & _ & Hd).
    apply list_elem_of_fmap in Hd as (t & -> & Ht).
    apply list_elem_of_filter in Ht as [_ Ht]. eauto.
  - destruct H as (t & -> & _ & Ht). eauto.
Qed.

(** X9: whatever a finished run lists, under any heading, is the output
    path of a template-owned file; an app-owned or excluded file is
    never listed, whatever its content or history. *)
Theorem findings_template_owned_only w args r f :
  main w args = Finished r ->
  listed r f ->
  f ∈ map output_of (r_template_owned r)
  /\ (f ∉ r_app_owned r) /\ (f ∉ r_excluded_files r).
Proof.
  intros Hrun Hl.
  destruct (main_finished_classified _ _ _ Hrun)
    as (ad & td & c & listing & skip & ex & ->).
  apply listed_template_owned in Hl.
  unfold report_of. cbn.
  rewrite classify_files_eq in *. cbn in *.
  split; [done|].
  apply list_elem_of_fmap in Hl as (t & -> & Ht).
  apply list_elem_of_filter in Ht as [[Hs He] _].
  split.
  - intros (t' & Heq & Ht')%list_elem_of_fmap.
    apply list_elem_of_filter in Ht' as [Hs' _].
    unfold is_app_owned in Hs'. by rewrite <- Heq in Hs'.
  - intros (t' & Heq & Ht')%list_elem_of_fmap.
    apply list_elem_of_filter in Ht' as [[_ He'] _].
    rewrite <- Heq in He'. congruence.
Qed.

(** X10: a file absent from the app is reported as missing and nowhere
    else: it is not a post-adoption change even when git names it, it is
    not compared to its source, and it is not a Jinja file to verify. *)
Theorem missing_reported_alone w args r f :
  main w args = Finished r ->
  f ∈ r_missing r ->
  (f ∉ post_adoption_files r) /\ (f ∉ diverged_files r)
  /\ (f ∉ map j_file (r_jinja_files r)) /\ (f ∉ pre_existing_files r)
  /\ (f ∉ jinja_only_files r) /\ (f ∉ also_diverged_files r).
Proof.
  intros Hrun.
  destruct (main_finished _ _ _ Hrun) as (ad & td & c & l & a & e & ->).
  unfold post_adoption_files, diverged_files, pre_existing_files,
    jinja_only_files, also_diverged_files.
  unfold report_of. cbn.
  rewrite !list_elem_of_fmap. intros (t & -> & Ht).
  apply list_elem_of_filter in Ht as [Hm _].
  assert (HG : forall x, x ∈ map (violation_of w ad c) (git_part w ad c l) ->
                 in_app w ad (v_file x) = true).
  { intros x (t' & -> & [[? _] _]%list_elem_of_filter)%list_elem_of_fmap.
    done. }
  assert (HD : forall x, x ∈ map (divergence_of w ad td) (diverged_part w ad td l) ->
                 in_app w ad (d_file x) = true).
  { intros x (t' & -> & [[? _] _]%list_elem_of_filter)%list_elem_of_fmap.
    done. }
  assert (HJ : forall x, x ∈ map jinja_of (jinja_part w ad l) ->
                 in_app w ad (j_file x) = true).
  { intros x (t' & -> & [[? _] _]%list_elem_of_filter)%list_elem_of_fmap.
    done. }
  repeat split.
  - intros (x & Heq & Hx). apply HG in Hx. congruence.
  - intros (x & Heq & Hx). apply HD in Hx. congruence.
  - intros (x & Heq & Hx). apply HJ in Hx. congruence.
  - intros (x & Heq & [_ Hx]%list_elem_of_filter). apply HD in Hx. congruence.
  - intros (x & Heq & [_ Hx]%list_elem_of_filter). apply HJ in Hx. congruence.
  - intros (x & Heq & [_ Hx]%list_elem_of_filter). apply HD in Hx. congruence.
Qed.

(** X11: a finished run that lists no post-adoption change, no
    pre-existing divergence and no missing file exits with code 0, and
    its summary splits all template-owned files between the matching and
    the Jinja numbers, the latter being the number of Jinja files found
    in the app. *)
Theorem clean_run_summary w args r :
  main w args = Finished r ->
  r_git_violations r = [] -> r_pre_existing r = [] -> r_missing r = [] ->
  exit_code (main w args) = 0%Z
  /\ (r_match_count r + r_jinja_only_count r)%Z = r_total_files r
  /\ r_jinja_only_count r = len (r_jinja_files r)
  /\ r_diverged r = [] /\ r_also_diverged r = [].
Proof.
  intros Hrun. rewrite Hrun.
  destruct (main_finished _ _ _ Hrun) as (ad & td & c & l & a & e & ->).
  unfold report_of. cbn. intros Hg Hp Hm.
  assert (HG : git_files w ad c l = ∅) by (unfold git_files; by rewrite Hg).
  rewrite Hp, Hg, Hm, HG in *. cbn.
  assert (Hd : map (divergence_of w ad td) (diverged_part w ad td l) = []).
  { rewrite <- Hp. symmetry. apply filter_all. intros x _.
    apply not_elem_of_empty. }
  rewrite Hd. cbn.
  rewrite (filter_all _ (map jinja_of (jinja_part w ad l))).
  - rewrite (left_id_L ∅ (∪)), size_empty. repeat split; lia.
  - intros x _. split; [rewrite (left_id_L ∅ (∪))|]; apply not_elem_of_empty.
Qed.

End ReportScope.

(** ** Pulling every repository *)
Section Pull.
Import PyStr Proc PullAll.
Context {World : Type}.
Variable subprocess_run : list string -> string -> World -> completed * World.

(** The two commands [main] runs in a repository. *)
Definition pull_calls (r : Workspace.repo) : list call :=
  [(["git"; "pull"], r.2); (["git"; "status"; "--porcelain"], r.2)].

Lemma proc_for_each_print {A} (f : A -> string) (l : list A)
    (s : @state World) :
  for_each l (fun a => print (f a)) s
  = (tt, State (world s) (calls s) (printed s ++ map f l)).
Proof.
  revert s. induction l as [|a l IH]; intros s; simpl.
  - rewrite app_nil_r. by destruct s.
  - unfold bind, print at 1. rewrite IH. simpl. by rewrite <- app_assoc.
Qed.

Lemma proc_for_each_print_raw {A} (f : A -> string) (l : list A)
    (s : @state World) :
  for_each l
    (fun a s0 => (tt, State (world s0) (calls s0) (printed s0 ++ [f a]))) s
  = (tt, State (world s) (calls s) (printed s ++ map f l)).
Proof. exact (proc_for_each_print f l s). Qed.

Lemma pull_repo_calls r (s : @state World) :
  calls (pull_repo subprocess_run r s).2 = calls s ++ pull_calls r
  /\ exists lines, printed (pull_repo subprocess_run r s).2
                   = printed s ++ lines /\ 5 <= length lines.
Proof.
  destruct r as [name path]. unfold pull_repo, bind, run.
  unfold print at 1 2 3. simpl.
  destruct (subprocess_run ["git"; "pull"] path (world s)) as [pull w1].
  unfold print at 1. simpl.
  destruct (nonempty (strip (stderr pull))); unfold print at 1, ret; simpl;
    destruct (subprocess_run ["git"; "status"; "--porcelain"] path w1)
      as [status w2]; simpl;
    destruct (nonempty (strip (stdout status))); simpl;
    rewrite ?proc_for_each_print; unfold print; simpl;
    rewrite ?proc_for_each_print_raw; simpl;
    (split; [by rewrite <- app_assoc|]);
    rewrite <- ?app_assoc; simpl; eexists; (split; [reflexivity|]);
    simpl; lia.
Qed.

(** X12: [pull_all] runs [git pull] then [git status --porcelain] in
    every repository, in the order of the list and whatever git answers:
    a failed pull or a dirty tree stops nothing, and no other command is
    run; for every repository at least five lines are printed. *)
Theorem pull_all_calls (repos : list Workspace.repo) (w : World) :
  calls (main subprocess_run repos (State w [] [])).2
  = flat_map pull_calls repos
  /\ 5 * length repos + 1
     <= length (printed (main subprocess_run repos (State w [] [])).2).
Proof.
  unfold main, bind.
  assert (H : forall (s : @state World),
            calls (for_each repos (pull_repo subprocess_run) s).2
            = calls s ++ flat_map pull_calls repos
            /\ length (printed s) + 5 * length repos
               <= length (printed
                            (for_each repos (pull_repo subprocess_run) s).2)).
  { induction repos as [|r rest IH]; intros s; simpl.
    - rewrite app_nil_r. split; [done|lia].
    - unfold bind.
      destruct (pull_repo_calls r s) as (Hc & lines & Hp & Hl).
      destruct (pull_repo subprocess_run r s) as [[] s1]. simpl in *.
      destruct (IH s1) as (Hc' & Hp').
      rewrite Hc', Hc, <- app_assoc. split; [done|].
      rewrite Hp, length_app in Hp'. lia. }
  destruct (H (State w [] [])) as (Hc & Hp).
  destruct (for_each repos _ _) as [[] s1]. simpl in *.
  split; [done|]. rewrite length_app. simpl. lia.
Qed.

End Pull.

(** ** Reviewing pending changes *)
Section Review.
Import PyStr Proc ReviewAll.
Context {World : Type}.
Variable subprocess_run : list string -> string -> World -> completed * World.

Definition four_titles : list string :=
  ["Unpushed commits"; "Staged changes"; "Unstaged changes";
   "Untracked files"].

(** The commands of [review_repo] in a repository, with or without the
    diff against upstream. *)
Definition review_calls (unpushed : bool) (path : string) : list call :=
  [(["git"; "log"; "--oneline"; "@{upstream}..HEAD"], path)]
  ++ (if unpushed
      then [(["git"; "diff"; "@{upstream}..HEAD"; "--color=always"], path)]
      else [])
  ++ [(["git"; "diff"; "--cached"; "--color=always"], path);
      (["git"; "diff"; "--color=always"], path);
      (["git"; "ls-files"; "--others"; "--exclude-standard"], path)].

(** A section has something to show. *)
Definition has_content (s : section) : Prop :=
  given s.1.2 = true
  \/ exists d, s.2 = Some d /\ nonempty (strip d) = true.

(** X13: the sections [review_repo] returns come in the fixed order
    unpushed, staged, unstaged, untracked, each at most once, and each
    has something to show; it prints nothing and runs four read-only
    commands, plus the diff against upstream exactly when it reports
    unpushed commits. *)
Theorem review_repo_sections (name path : string) (s : @state World) :
  let res := review_repo subprocess_run name path s in
  map title_of res.1 `sublist_of` four_titles
  /\ Forall has_content res.1
  /\ calls res.2
     = calls s
       ++ review_calls
            (bool_decide ("Unpushed commits" ∈ map title_of res.1)) path
  /\ printed res.2 = printed s.
Proof.
  unfold review_repo, bind, run_color, run, ret. simpl.
  destruct (subprocess_run _ path (world s)) as [log w1]. simpl.
  destruct ((returncode log =? 0)%Z && nonempty (strip (stdout log)))
    eqn:Elog; simpl.
  all: repeat match goal with
         | |- context [subprocess_run ?a ?p ?w] =>
             destruct (subprocess_run a p w) as [? ?]; simpl
         end.
  all: repeat match goal with
         | |- context [nonempty (strip (stdout ?c))] =>
             destruct (nonempty (strip (stdout c))) eqn:?; simpl
         end.
  all: try apply andb_true_iff in Elog as [_ Elog].
  all: split;
    [ unfold four_titles;
      repeat first [apply sublist_nil | apply sublist_skip
                   | apply sublist_cons]
    | split;
      [ repeat (apply Forall_cons_2;
                  [ unfold has_content; simpl;
                    first [ by left | right; eexists; by split ] |]);
        apply Forall_nil_2
      | split; [|done]; unfold review_calls; simpl;
        by rewrite <- ?app_assoc ] ].
Qed.

End Review.

(** ** Nothing pending *)
Section ReviewQuiet.
Import PyStr Proc ReviewAll.
Context {World : Type}.
Variable subprocess_run : list string -> string -> World -> completed * World.

(** Git answers every query with blanks only. *)
Definition quiet : Prop :=
  forall args cwd w, strip (stdout (subprocess_run args cwd w).1) = "".

Lemma review_repo_quiet name path (s : @state World) :
  quiet ->
  (review_repo subprocess_run name path s).1 = []
  /\ printed (review_repo subprocess_run name path s).2 = printed s
  /\ calls (review_repo subprocess_run name path s).2
     = calls s ++ review_calls false path.
Proof.
  intros Hq. unfold review_repo, bind, run_color, run, ret. simpl.
  pose proof (Hq ["git"; "log"; "--oneline"; "@{upstream}..HEAD"] path
                (world s)) as H1.
  destruct (subprocess_run _ path (world s)) as [log w1]. simpl in *.
  rewrite H1, andb_false_r. simpl.
  pose proof (Hq ["git"; "diff"; "--cached"; "--color=always"] path w1) as H2.
  destruct (subprocess_run _ path w1) as [staged w2]. simpl in *.
  rewrite H2. simpl.
  pose proof (Hq ["git"; "diff"; "--color=always"] path w2) as H3.
  destruct (subprocess_run _ path w2) as [unstaged w3]. simpl in *.
  rewrite H3. simpl.
  pose proof (Hq ["git"; "ls-files"; "--others"; "--exclude-standard"] path
                w3) as H4.
  destruct (subprocess_run _ path w3) as [untracked w4]. simpl in *.
  rewrite H4. simpl. repeat split. unfold review_calls. simpl.
  by rewrite <- !app_assoc.
Qed.

(** X14: when git has nothing to report in any repository,
    [review_all] prints the single line that nothing is pending, then an
    empty line, after four read-only queries per repository. *)
Theorem review_all_quiet (repos : list Workspace.repo) (w : World) :
  quiet ->
  printed (main subprocess_run repos (State w [] [])).2
  = ["No pending changes in any repo."; ""]
  /\ calls (main subprocess_run repos (State w [] [])).2
     = flat_map (fun r => review_calls false r.2) repos.
Proof.
  intros Hq. unfold main, bind.
  assert (H : forall (s : @state World),
            (review_loop subprocess_run repos false s).1 = false
            /\ printed (review_loop subprocess_run repos false s).2
               = printed s
            /\ calls (review_loop subprocess_run repos false s).2
               = calls s ++ flat_map (fun r => review_calls false r.2) repos).
  { induction repos as [|[name path] rest IH]; intros s; simpl.
    - by rewrite app_nil_r.
    - unfold bind.
      destruct (review_repo_quiet name path s Hq) as (Hs & Hp & Hc).
      destruct (review_repo subprocess_run name path s) as [sections s1].
      simpl in *. subst sections.
      destruct (IH s1) as (Hf & Hp' & Hc').
      rewrite Hf, Hp', Hc', Hp, Hc. by rewrite <- app_assoc. }
  destruct (H (State w [] [])) as (Hf & Hp & Hc).
  destruct (review_loop subprocess_run repos false _) as [found s1].
  simpl in *. subst found. simpl. by rewrite Hp, Hc.
Qed.

End ReviewQuiet.

Lemma review_all_quiet_witness :
  Proc.printed
    (ReviewAll.main (fun _ _ (w : unit) => (Proc.Completed 0 "" "", w))
       [("A", "/ws/A"); ("B", "/ws/B")] (Proc.State tt [] [])).2
  = ["No pending changes in any repo."; ""].
Proof.
  refine (proj1 (review_all_quiet
                   (fun _ _ (w : unit) => (Proc.Completed 0 "" "", w))
                   [("A", "/ws/A"); ("B", "/ws/B")] tt _)).
  intros args cwd w. reflexivity.
Defined.

(** ** The sync commit *)
Section SyncCommit.
Import PyStr Proc SyncReview.

Lemma lstrip_head s c r : lstrip s = String c r -> isspace c = false.
Proof.
  induction s as [|d s IH]; simpl; [done|].
  destruct (isspace d) eqn:Ed; [done|]. by intros [= <- _].
Qed.

Lemma rstrip_head d t c r : rstrip (String d t) = String c r -> c = d.
Proof.
  simpl. destruct (rstrip t); [destruct (isspace d)|]; by intros [= <- _].
Qed.

Lemma strip_head s c r : strip s = String c r -> isspace c = false.
Proof.
  unfold strip. destruct (lstrip s) as [|d t] eqn:El; [done|].
  intros ->%rstrip_head. by apply lstrip_head in El.
Qed.

Lemma cut_char_inv d s a b :
  cut (String d "") s = Some (a, b) ->
  s = a +:+ String d b /\ contains (String d "") a = false.
Proof.
  revert a. induction s as [|c s IH]; intros a; unfold cut; fold cut.
  - simpl. done.
  - cbn [String.prefix String.length drop].
    destruct (Ascii.ascii_dec d c) as [->|Hne].
    + assert (String.prefix "" s = true) as -> by by destruct s.
      by intros [= <- <-].
    + destruct (cut (String d "") s) as [[a' b']|]; [|done].
      intros [= <- <-]. destruct (IH a' eq_refl) as [-> Hc].
      split; [done|]. cbn [contains String.prefix].
      destruct (Ascii.ascii_dec d c); [done|]. by rewrite Hc.
Qed.

Lemma contains_char_snoc d cur c :
  contains (String d "") cur = false -> c <> d ->
  contains (String d "") (cur +:+ String c "") = false.
Proof.
  intros Hc Hne. induction cur as [|e cur IH].
  - rewrite append_nil. cbn [contains String.prefix].
    by destruct (Ascii.ascii_dec d c) as [->|].
  - rewrite append_cons. cbn [contains String.prefix] in *.
    destruct (Ascii.ascii_dec d e).
    + by destruct cur.
    + simpl in Hc. by apply IH.
Qed.

Lemma split_char_head d cur s :
  contains (String d "") cur = false ->
  exists x rest, split_char_from d cur s = x :: rest
                 /\ contains (String d "") x = false.
Proof.
  revert cur. induction s as [|c s IH]; intros cur Hc; simpl; [by eauto|].
  destruct (Ascii.eqb c d) eqn:E; [by eauto|].
  apply IH, contains_char_snoc; [done|]. by apply Ascii.eqb_neq.
Qed.

(** X15: [get_sync_commit] gives nothing exactly when [git log] fails or
    prints only blanks; otherwise the hash it returns is not empty and
    has no space, and the stripped output is the hash alone (then the
    date is empty) or the hash, one space and the date. *)
Theorem sync_commit_of_spec (result : completed) :
  (sync_commit_of result = None
   <-> returncode result <> 0%Z \/ strip (stdout result) = "")
  /\ (forall sha date, sync_commit_of result = Some (sha, date) ->
        sha <> "" /\ contains " " sha = false
        /\ (strip (stdout result) = sha /\ date = ""
            \/ strip (stdout result) = sha +:+ " " +:+ date)).
Proof.
  unfold sync_commit_of, split1.
  destruct (returncode result =? 0)%Z eqn:Erc; simpl.
  - apply Z.eqb_eq in Erc.
    destruct (strip (stdout result)) as [|c r] eqn:Es;
      cbn [nonempty String.eqb negb orb].
    + split; [split; [by right|done]|done].
    + pose proof (strip_head _ _ _ Es) as Hsp.
      destruct (cut " " (String c r)) as [[a b]|] eqn:Ec.
      * apply cut_char_inv in Ec as [Heq Hna].
        split; [split; [done|by intros [?|?]]|].
        intros sha date [= <- <-]. split; [|split; [done|by right]].
        intros ->. rewrite append_nil in Heq. injection Heq as -> _.
        by vm_compute in Hsp.
      * split; [split; [done|by intros [?|?]]|].
        intros sha date [= <- <-]. split; [done|]. split; [|by left].
        clear -Ec. revert Ec. generalize (String c r). intros s.
        induction s as [|e s IH]; [done|]. unfold cut; fold cut.
        cbn [String.prefix String.length drop contains].
        destruct (Ascii.ascii_dec " " e); [by destruct s|].
        destruct (cut " " s) as [[? ?]|]; [done|]. intros _. by apply IH.
  - apply Z.eqb_neq in Erc. split; [split; [by left|done]|done].
Qed.

End SyncCommit.

(** ** Reviewing one repository since its last sync *)
Section SyncRepo.
Import PyStr Proc SyncReview.
Context {World : Type}.
Variable subprocess_run : list string -> string -> World -> completed * World.
Variable joinpath : string -> string -> string.
Variable path_exists : string -> bool.
Variable read_text : string -> string.

#[local] Arguments take : simpl never.
#[local] Arguments split_char : simpl never.

Definition sync_log_call (path : string) : call :=
  (["git"; "log"; "-1"; "--format=%H %ai"; "--"; ANSWERS_FILE], path).

Definition since_calls (sha path : string) : list call :=
  [(["git"; "log"; "--oneline"; sha +:+ "..HEAD"; "--"; ".";
     ":(exclude)docs/"], path);
   (["git"; "diff"; "--color=always"; sha +:+ "..HEAD"; "--"; ".";
     ":(exclude)docs/"], path)].

Lemma sync_sha_nonempty result sha date :
  sync_commit_of result = Some (sha, date) -> nonempty sha = true.
Proof.
  unfold sync_commit_of, split1.
  destruct (negb _ || negb _) eqn:E; [done|].
  apply orb_false_iff in E as [_ E]. apply negb_false_iff in E.
  destruct (strip (stdout result)) as [|c r] eqn:Es; [done|].
  pose proof (strip_head _ _ _ Es) as Hsp.
  destruct (cut " " (String c r)) as [[a b]|] eqn:Ec.
  - apply cut_char_inv in Ec as [Heq _]. intros [= <- <-].
    destruct a; [|done]. rewrite append_nil in Heq.
    injection Heq as -> _. by vm_compute in Hsp.
  - by intros [= <- <-].
Qed.

Lemma length_take n s : String.length (take n s) <= n.
Proof.
  revert s. induction n as [|n IH]; intros [|c s]; simpl; try lia.
  specialize (IH s). lia.
Qed.


End SyncRepo.

(** ** Stripped results *)
Section Stripped.
Import PyStr ChangesSinceSync Violations.

Lemma rstrip_cons c s :
  rstrip (String c s)
  = match rstrip s with
    | EmptyString => if isspace c then EmptyString else String c EmptyString
    | r' => String c r'
    end.
Proof. reflexivity. Qed.

Lemma rstrip_idem s : rstrip (rstrip s) = rstrip s.
Proof.
  induction s as [|c s IH]; [done|]. rewrite rstrip_cons.
  destruct (rstrip s) as [|d t] eqn:Er.
  - destruct (isspace c) eqn:Ec; [done|]. rewrite rstrip_cons. simpl.
    by rewrite Ec.
  - rewrite rstrip_cons, IH. done.
Qed.

Lemma lstrip_nonspace c r : isspace c = false -> lstrip (String c r) = String c r.
Proof. intros H. cbn [lstrip]. by rewrite H. Qed.

Lemma strip_idem s : strip (strip s) = strip s.
Proof.
  unfold strip. destruct (lstrip s) as [|d t] eqn:El; [done|].
  apply lstrip_head in El.
  destruct (rstrip (String d t)) as [|c r] eqn:Er; [done|].
  pose proof (rstrip_head _ _ _ _ Er) as ->.
  rewrite (lstrip_nonspace d r El), <- Er. apply rstrip_idem.
Qed.

(** X17: the version [get_template_version] returns has no blank at
    either end: stripping it again changes nothing, and it does not
    start with a blank. *)
Theorem template_version_stripped (content v : string) :
  get_template_version content = Some v ->
  strip v = v /\ (forall c r, v = String c r -> isspace c = false).
Proof.
  unfold get_template_version.
  assert (H : forall lines, get_template_version_lines lines = Some v ->
                strip v = v).
  { induction lines as [|l ls IH]; simpl.
    - by intros [= <-].
    - destruct (startswith l "_commit:"); [|done].
      destruct (split1 ":" l !! 1%nat) as [x|]; [|done].
      simpl. intros [= <-]. apply strip_idem. }
  intros Hv. pose proof (H _ Hv) as Hs. split; [done|].
  intros c r ->. by apply strip_head in Hs.
Qed.

(** X18: the baseline commit [find_copier_commit] returns is the
    stripped output of git, never empty; it returns nothing exactly when
    git prints only blanks. *)
Theorem find_copier_commit_spec (w : env) (app_dir : string) :
  let out :=
    git_stdout w
      ["git"; "log"; "--format=%H"; "-1"; "--"; ".copier-answers.yml"]
      app_dir in
  (find_copier_commit w app_dir = None <-> strip out = "")
  /\ (forall commit, find_copier_commit w app_dir = Some commit ->
        commit = strip out /\ commit <> "" /\ strip commit = commit).
Proof.
  intros out. unfold find_copier_commit. fold out.
  destruct (strip out) as [|c r] eqn:Es; simpl.
  - split; [done|]. intros commit H. discriminate H.
  - split; [split; intros H; discriminate H|].
    intros commit [= <-]. split; [done|]. split; [done|].
    rewrite <- Es. apply strip_idem.
Qed.

End Stripped.

Lemma template_version_stripped_witness :
  PyStr.strip "v1.2.3" = "v1.2.3".
Proof.
  exact (proj1 (template_version_stripped
                  ("_commit:   v1.2.3  " +:+ PyStr.nl) "v1.2.3" eq_refl)).
Defined.

(** ** Diverged files are split in two *)
Section DivergedSplit.
Import PyStr Violations.

Lemma filter_split_perm {A} (P : A -> Prop) `{!forall x, Decision (P x)}
    (l : list A) :
  filter (fun x => ~ P x) l ++ filter P l ≡ₚ l.
Proof.
  induction l as [|x l IH]; [done|]. rewrite !filter_cons.
  destruct (decide (P x)) as [Hp|Hp].
  - rewrite decide_False by tauto. by rewrite <- Permutation_middle, IH.
  - rewrite decide_True by done. simpl. by rewrite IH.
Qed.

(** X19: every file that [compare_to_source] found diverged is either in
    the pre-existing listing or among the files of the "reported above"
    note, never both and never dropped. *)
Theorem diverged_split w args r :
  main w args = Finished r ->
  r_pre_existing r ++ r_also_diverged r ≡ₚ r_diverged r
  /\ (forall f, f ∈ pre_existing_files r -> f ∉ also_diverged_files r).
Proof.
  intros Hrun.
  destruct (main_finished _ _ _ Hrun) as (ad & td & c & l & a & e & ->).
  unfold pre_existing_files, also_diverged_files.
  unfold report_of. cbn. split.
  - apply (filter_split_perm (fun d => d_file d ∈ git_files w ad c l)).
  - intros f (d & -> & [Hn _]%list_elem_of_filter)%list_elem_of_fmap.
    intros (d' & Heq & [Hy _]%list_elem_of_filter)%list_elem_of_fmap.
    by rewrite Heq in Hn.
Qed.

End DivergedSplit.

(** A generated app that nobody touched. *)
Definition untouched_env : Violations.env :=
  example_env
    [Violations.DirEntry "a.txt" true; Violations.DirEntry "b.jinja" true]
    ["a.txt"; "b"] [] [].

Lemma findings_template_owned_only_witness :
  "d" ∈ ["a.txt"; "b"; "c"; "d"; "e"].
Proof.
  refine (proj1 (findings_template_owned_only five_files_env example_args _
                   "d" eq_refl _)).
  right. left. vm_compute. left.
Defined.

Lemma missing_reported_alone_witness :
  exists r,
    Violations.main five_files_env example_args = Violations.Finished r
    /\ ("e" ∉ post_adoption_files r).
Proof.
  eexists. split; [vm_compute; reflexivity|].
  refine (proj1 (missing_reported_alone five_files_env example_args _ "e"
                   eq_refl _)).
  vm_compute. left.
Defined.

Lemma clean_run_summary_witness :
  Violations.exit_code (Violations.main untouched_env example_args) = 0%Z.
Proof.
  exact (proj1 (clean_run_summary untouched_env example_args _
                  eq_refl eq_refl eq_refl eq_refl)).
Defined.

Lemma diverged_split_witness :
  exists r,
    Violations.main five_files_env example_args = Violations.Finished r
    /\ Violations.r_pre_existing r ++ Violations.r_also_diverged r
       ≡ₚ Violations.r_diverged r.
Proof.
  eexists. split; [vm_compute; reflexivity|].
  exact (proj1 (diverged_split five_files_env example_args _ eq_refl)).
Defined.

(** ** Trailing commas of the workspace file *)
Section TrailingCommas.
Import PyStr Jsonc.

Lemma close_after_spaces_shorter s c rest :
  Violations.space_star close_bracket s = Some (c, rest) ->
  String.length rest < String.length s.
Proof.
  induction s as [|d s IH]; [done|]. cbn [Violations.space_star].
  assert (Hclose : close_bracket (String d s) = Some (c, rest) ->
                   String.length rest < String.length (String d s)).
  { unfold close_bracket. destruct (_ || _); [|done].
    intros [= <- <-]. simpl. lia. }
  destruct (isspace d); [|done].
  destruct (Violations.space_star close_bracket s) as [[c' r']|]; [|done].
  intros [= <- <-]. specialize (IH eq_refl). simpl. lia.
Qed.

Lemma match_comma_shorter s c rest :
  match_comma s = Some (c, rest) -> String.length rest < String.length s.
Proof.
  unfold match_comma, Violations.lit.
  destruct (String.prefix "," s) eqn:Hp; [|done].
  apply prefix_drop in Hp. intros H%close_after_spaces_shorter.
  apply (f_equal String.length) in Hp. rewrite length_append in Hp.
  simpl in *. lia.
Qed.

Lemma sub_steps_enough n m s :
  String.length s <= n -> String.length s <= m ->
  sub_steps n s = sub_steps m s.
Proof.
  revert m s. induction n as [|n IH]; intros m s Hn Hm.
  - destruct s; [|simpl in Hn; lia]. by destruct m.
  - destruct m as [|m]; [destruct s; [done|simpl in Hm; lia]|].
    simpl. destruct (match_comma s) as [[c rest]|] eqn:Hmc.
    + apply match_comma_shorter in Hmc. f_equal. apply IH; lia.
    + destruct s as [|c r]; [done|]. simpl in *. f_equal. apply IH; lia.
Qed.

(** One step of the scan. *)
Lemma strip_trailing_commas_step s :
  strip_trailing_commas s
  = match match_comma s with
    | Some (c, rest) => String c (strip_trailing_commas rest)
    | None =>
        match s with
        | EmptyString => EmptyString
        | String c r => String c (strip_trailing_commas r)
        end
    end.
Proof.
  unfold strip_trailing_commas. destruct s as [|d s]; [done|].
  cbn [String.length sub_steps].
  destruct (match_comma (String d s)) as [[c rest]|] eqn:Hmc; [|done].
  apply match_comma_shorter in Hmc. simpl in Hmc.
  f_equal. apply sub_steps_enough; lia.
Qed.

Lemma match_comma_other c r :
  c <> ","%char -> match_comma (String c r) = None.
Proof.
  intros Hne. unfold match_comma, Violations.lit.
  by rewrite prefix_head_ne.
Qed.

Lemma match_comma_blanks ws br b :
  all_chars isspace ws = true ->
  br = "}"%char \/ br = "]"%char ->
  match_comma ("," +:+ ws +:+ String br b) = Some (br, b).
Proof.
  intros Hws Hbr. unfold match_comma.
  rewrite append_cons, append_nil, lit_cons, lit_nil.
  induction ws as [|c ws IH].
  - rewrite append_nil. rewrite space_star_nonspace by by destruct Hbr as [->| ->].
    unfold close_bracket. by destruct Hbr as [->| ->].
  - simpl in Hws. apply andb_true_iff in Hws as [Hc Hws].
    rewrite append_cons. apply space_star_space; [done|]. by apply IH.
Qed.

(** X20: the scan removes a trailing comma: in a text made of a part
    without commas, a comma, blanks, a closing brace or bracket and a
    rest, the comma and the blanks go, the bracket stays, and the scan
    goes on with the rest. *)
Theorem strip_trailing_commas_removes a ws br b :
  contains "," a = false ->
  all_chars isspace ws = true ->
  br = "}"%char \/ br = "]"%char ->
  strip_trailing_commas (a +:+ "," +:+ ws +:+ String br b)
  = a +:+ String br (strip_trailing_commas b).
Proof.
  intros Ha Hws Hbr. induction a as [|c a IH].
  - rewrite !append_nil, strip_trailing_commas_step.
    by rewrite match_comma_blanks.
  - cbn [contains String.prefix] in Ha.
    destruct (Ascii.ascii_dec "," c) as [<-|Hne].
    { by destruct a. }
    simpl in Ha. rewrite !(append_cons c a), strip_trailing_commas_step.
    rewrite match_comma_other by done. by rewrite IH.
Qed.

(** X21: a text without commas is left as it is, and the scan never
    makes a text longer. *)
Theorem strip_trailing_commas_keeps text :
  (contains "," text = false -> strip_trailing_commas text = text)
  /\ String.length (strip_trailing_commas text) <= String.length text.
Proof.
  split.
  - induction text as [|c r IH]; [done|]. intros Hc.
    cbn [contains String.prefix] in Hc.
    destruct (Ascii.ascii_dec "," c) as [<-|Hne]; [by destruct r|].
    simpl in Hc. rewrite strip_trailing_commas_step.
    rewrite match_comma_other by done. by rewrite IH.
  - unfold strip_trailing_commas. generalize (String.length text) at 1.
    intros n. revert text. induction n as [|n IH]; intros s; [simpl; lia|].
    simpl. destruct (match_comma s) as [[c rest]|] eqn:Hmc.
    + apply match_comma_shorter in Hmc. specialize (IH rest). simpl. lia.
    + destruct s as [|c r]; [done|]. specialize (IH r). simpl. lia.
Qed.

End TrailingCommas.

Lemma strip_trailing_commas_removes_witness :
  Jsonc.strip_trailing_commas "[1, ]" = "[1]".
Proof.
  exact (strip_trailing_commas_removes "[1" " " "]"%char "" eq_refl eq_refl
           (or_intror eq_refl)).
Defined.

Lemma strip_trailing_commas_keeps_witness :
  Jsonc.strip_trailing_commas "[1 2]" = "[1 2]".
Proof. exact (proj1 (strip_trailing_commas_keeps "[1 2]") eq_refl). Defined.

(** ** From a rule to the class of a file *)
Section RuleToClass.
Import PyStr Violations.

#[local] Existing Instance is_app_owned_dec.
#[local] Existing Instance is_excluded_file_dec.
#[local] Existing Instance is_template_owned_dec.

(** X22: when an [_exclude] entry matches the pattern and its flag is
    absent or falsy in the answers, every enumerated file that is not
    app-owned and whose output path is the path of the rule, or lies
    under it, is classified excluded and is not template-owned: it is
    outside drift detection. *)
Theorem flag_gated_file_excluded (listing : list dir_entry)
    (config : config) (answers : gmap string yaml)
    (entry flag_name body : string) (t : triple) :
  entry ∈ default [] (cfg_exclude config) ->
  pattern_match (strip entry) = Some (flag_name, body) ->
  truthy (default (YBool false) (answers !! flag_name)) = false ->
  t ∈ enumerate_template_files listing ->
  output_of t = strip body
  \/ startswith (output_of t) (strip body +:+ "/") = true ->
  output_of t ∉ get_skip_if_exists config ->
  let '(template_owned, app_owned, excluded_files) :=
    classify_files listing (get_skip_if_exists config)
      (evaluate_excludes config answers) in
  output_of t ∈ excluded_files /\ (t ∉ template_owned)
  /\ (output_of t ∉ app_owned).
Proof.
  intros Hin Hm Hflag Ht Hunder Hskip.
  assert (Hex : strip body ∈ evaluate_excludes config answers).
  { rewrite evaluate_excludes_fold. apply exclude_fold_elem. right.
    by exists entry, flag_name, body. }
  assert (He : is_excluded (evaluate_excludes config answers) (output_of t)
               = true).
  { apply is_excluded_spec. destruct Hunder as [->|Hp]; [by left|].
    right. by exists (strip body). }
  rewrite classify_files_eq. split; [|split].
  - apply list_elem_of_fmap. exists t. split; [done|].
    by apply list_elem_of_filter.
  - intros [[_ Hn] _]%list_elem_of_filter. congruence.
  - intros (t' & Heq & [Hs _]%list_elem_of_filter)%list_elem_of_fmap.
    unfold is_app_owned in Hs. by rewrite <- Heq in Hs.
Qed.

End RuleToClass.

Lemma flag_gated_file_excluded_witness :
  "app/db/models.py" ∈ ["app/db/models.py"]
  /\ (("app/db/models.py", "app/db/models.py", false)
        ∉ [("app/main.py", "app/main.py", false)])
  /\ ("app/db/models.py" ∉ @nil string).
Proof.
  exact (flag_gated_file_excluded
           [Violations.DirEntry "app/db/models.py" true;
            Violations.DirEntry "app/main.py" true]
           (Violations.Config None None
              (Some ["{% if not use_database %}app/db{% endif %}"]))
           {["use_database" := Violations.YBool false]}
           "{% if not use_database %}app/db{% endif %}" "use_database"
           "app/db" ("app/db/models.py", "app/db/models.py", false)
           ltac:(left) eq_refl eq_refl ltac:(left)
           (or_intror eq_refl) ltac:(set_solver)).
Defined.

(** ** Runs that an exception ends *)
Section Raising.
Import PyStr Violations.

(** The call returned. *)
Definition returns {A} (r : result A) : bool :=
  match r with Ok _ => true | Raise _ => false end.


(** X24: a run ends with its report only if every template-owned file
    that exists in the app and is not a Jinja file could be read, as
    could its template source; a directory or an unreadable file at the
    place of such a file leaves no report. *)
Theorem finished_run_read_all w args r t :
  main w args = Finished r ->
  t ∈ r_template_owned r ->
  path_exists w (joinpath w (resolve w (arg_app_dir args)) (output_of t))
  = true ->
  is_jinja_of t = false ->
  returns (read_bytes w
             (joinpath w (resolve w (arg_app_dir args)) (output_of t)))
  = true.
Proof.
  intros (td & Hr)%main_finished_readable Ht He Hj.
  rewrite Forall_forall in Hr.
  destruct (Hr t Ht He Hj) as (a & b & Ha & _). by rewrite Ha.
Qed.

(** X25: when the answers file holds no mapping (an empty file, for
    which [yaml.safe_load] returns [None]), no run ends with a report and
    the exit code is 1, with or without [--template-repo]. *)
Theorem answers_not_mapping_no_report w args :
  load_app_answers w (resolve w (arg_app_dir args)) = Ok None ->
  exit_code (main w args) = 1%Z /\ forall r, main w args <> Finished r.
Proof.
  intros Ha. unfold main. rewrite Ha.
  repeat case_match; simplify_eq; split; try done.
Qed.

End Raising.


Lemma finished_run_read_all_witness :
  returns (Violations.read_bytes five_files_env "/app/d") = true.
Proof.
  refine (finished_run_read_all five_files_env example_args _ ("d", "d", false)
            eq_refl _ eq_refl eq_refl).
  vm_compute. set_solver.
Defined.

Lemma answers_not_mapping_no_report_witness :
  Violations.exit_code (Violations.main empty_answers_env example_args) = 1%Z.
Proof.
  exact (proj1 (answers_not_mapping_no_report empty_answers_env example_args
                  eq_refl)).
Defined.
